(** * integrate_detector_signal: area of a detector pulse and its uncertainty

    A shallow embedding of [integrate_detector_signal.py].  The arguments
    [time] and [signal] are one-dimensional float64 arrays, as the signature
    declares them ([np.ndarray]); they are lists of binary64 floats here,
    boolean masks are lists of booleans, and elementwise arithmetic and
    comparisons are those of IEEE 754 binary64.  Python exceptions are the
    [Raise] branch of a result type; warnings are not modelled.  The SciPy
    and pyplot entry points the function calls ([curve_fit], [simps], the
    plotting block) as well as [np.exp] are parameters of the development. *)

From Stdlib Require Import List Bool Arith ZArith Lia Floats Permutation Sorted.
From Stdlib Require Uint63.
Import ListNotations.

Set Implicit Arguments.
Set Warnings "-inexact-float".

(** ** Python exceptions and the result of a call *)

Inductive exception : Type :=
| ValueError_broadcast      (* operands could not be broadcast together *)
| IndexError_boolean_index  (* boolean index did not match indexed array *)
| ValueError_zero_size      (* zero-size array to reduction operation *)
| ValueError_unpack         (* wrong number of values to unpack *)
| LibraryError (code : nat) (* raised inside curve_fit, simps or pyplot *).

Inductive result (A : Type) : Type :=
| Ok (a : A)
| Raise (e : exception).

Arguments Ok {A} a.
Arguments Raise {A} e.

Definition bind {A B : Type} (m : result A) (k : A -> result B) : result B :=
  match m with
  | Ok a => k a
  | Raise e => Raise e
  end.

Declare Scope py_scope.
Delimit Scope py_scope with py.
Notation "x <- m ;; k" := (bind m (fun x => k))
  (at level 61, m at next level, right associativity) : py_scope.
Notation "' p <- m ;; k" := (bind m (fun x => match x with p => k end))
  (at level 61, p pattern, m at next level, right associativity) : py_scope.

Fixpoint mapM {A B : Type} (f : A -> result B) (l : list A) : result (list B) :=
  match l with
  | [] => Ok []
  | a :: r => (b <- f a ;; bs <- mapM f r ;; Ok (b :: bs))%py
  end.

(** The two exceptions line 43 can raise on inputs of different length. *)
Definition InputShapeError (e : exception) : Prop :=
  e = ValueError_broadcast \/ e = IndexError_boolean_index.

(** ** NumPy primitives on one-dimensional arrays *)

Open Scope float_scope.

Definition ndarray := list float.
Definition mask := list bool.

(** int -> float64 conversion of a size. *)
Definition float_of_nat (n : nat) : float := of_uint63 (Uint63.of_Z (Z.of_nat n)).

Definition np_isnan (a : ndarray) : mask := map is_nan a.

(** [~m] on a boolean array. *)
Definition invert (m : mask) : mask := map negb m.

Fixpoint zip_with {A B C : Type} (f : A -> B -> C) (a : list A) (b : list B) : list C :=
  match a, b with
  | x :: a', y :: b' => f x y :: zip_with f a' b'
  | _, _ => []
  end.

(** [np.logical_and] on two boolean arrays of shapes [(n,)] and [(m,)]:
    elementwise when [n = m], a length-one operand is broadcast, anything
    else raises. *)
Definition np_logical_and (a b : mask) : result mask :=
  if Nat.eqb (length a) (length b) then Ok (zip_with andb a b)
  else match a, b with
       | [x], _ => Ok (map (andb x) b)
       | _, [y] => Ok (map (fun x => andb x y) a)
       | _, _ => Raise ValueError_broadcast
       end.

Fixpoint select {A : Type} (a : list A) (m : mask) : list A :=
  match a, m with
  | x :: a', b :: m' => if b then x :: select a' m' else select a' m'
  | _, _ => []
  end.

(** [a[m]] with a boolean array [m]: a mask without entries selects nothing,
    from an array of any length; any other mask must be as long as [a]. *)
Definition getitem {A : Type} (a : list A) (m : mask) : result (list A) :=
  match m with
  | [] => Ok []
  | _ :: _ =>
      if Nat.eqb (length a) (length m) then Ok (select a m)
      else Raise IndexError_boolean_index
  end.

(** [a > x] and [a < x] against a scalar. *)
Definition np_greater (a : ndarray) (x : float) : mask := map (fun t => x <? t) a.
Definition np_less (a : ndarray) (x : float) : mask := map (fun t => t <? x) a.

(** [a - x] against a scalar. *)
Definition np_subtract (a : ndarray) (x : float) : ndarray := map (fun s => s - x) a.

Definition np_size {A : Type} (a : list A) : nat := length a.
Definition np_sqrt (x : float) : float := PrimFloat.sqrt x.
Definition np_square (x : float) : float := x * x.
Definition np_full (n : nat) (v : float) : ndarray := repeat v n.

(** The inner loops of [np.maximum] and [np.minimum].  Among zeros that
    compare equal the one met first is kept here; which sign NumPy returns
    in that case is not fixed by the comparison, and no statement below
    depends on it. *)
Definition maximum (acc x : float) : float :=
  if (x <=? acc) || is_nan acc then acc else x.
Definition minimum (acc x : float) : float :=
  if (acc <=? x) || is_nan acc then acc else x.

Definition np_max (a : ndarray) : result float :=
  match a with
  | [] => Raise ValueError_zero_size
  | x :: r => Ok (fold_left maximum r x)
  end.

Definition np_min (a : ndarray) : result float :=
  match a with
  | [] => Raise ValueError_zero_size
  | x :: r => Ok (fold_left minimum r x)
  end.

(** [add.reduce]: the sum, accumulated here from index 0 upwards.  NumPy
    adds long arrays in blocks, which can change the last bits of a sum; no
    statement below depends on the order of the additions. *)
Definition np_sum (a : ndarray) : float := fold_left add a 0.

(** [np.mean]: sum over count; the empty array gives [0/0]. *)
Definition np_mean (a : ndarray) : float := np_sum a / float_of_nat (length a).

(** [np.std] with [ddof = 0]: square root of the mean squared deviation. *)
Definition np_std (a : ndarray) : float :=
  let arrmean := np_sum a / float_of_nat (length a) in
  let x := map (fun v => np_square (v - arrmean)) a in
  np_sqrt (np_sum x / float_of_nat (length a)).

(** [np.diff]: consecutive differences. *)
Fixpoint np_diff (a : ndarray) : ndarray :=
  match a with
  | x :: ((y :: _) as r) => (y - x) :: np_diff r
  | _ => []
  end.

(** NumPy's sort order on floats: NaN goes last. *)
Definition sort_lt (a b : float) : bool :=
  (a <? b) || (is_nan b && negb (is_nan a)).

Fixpoint sort_insert (x : float) (l : ndarray) : ndarray :=
  match l with
  | [] => [x]
  | y :: r => if sort_lt y x then y :: sort_insert x r else x :: l
  end.

Definition np_sort (a : ndarray) : ndarray := fold_right sort_insert [] a.

(** [np.median]: mean of the middle element(s) of the sorted array, NaN when
    the array holds a NaN or is empty. *)
Definition np_median (a : ndarray) : float :=
  let part := np_sort a in
  let sz := length part in
  let index := Nat.div sz 2 in
  let middle :=
    if Nat.odd sz then firstn 1 (skipn index part)
    else firstn 2 (skipn (index - 1)%nat part) in
  let rout := np_mean middle in
  if is_nan (last part 0) then nan else rout.

(** [np.diagonal] of a two-dimensional array given by its rows: the entries
    [m[i][i]] for [i] below both the row and the column count. *)
Definition np_diagonal (m : list ndarray) : ndarray :=
  let n := Nat.min (length m) (length (hd [] m)) in
  map (fun i => nth i (nth i m []) 0) (seq 0 n).

(** [np.linalg.norm] of a vector: square root of its dot product with itself. *)
Definition np_linalg_norm (a : ndarray) : float :=
  np_sqrt (np_sum (map (fun v => v * v) a)).

(** [np.linspace(start, stop, num)] with the end point included. *)
Definition np_linspace (start stop : float) (num : nat) : ndarray :=
  let div := (num - 1)%nat in
  let delta := stop - start in
  let y := map float_of_nat (seq 0 num) in
  let y :=
    if Nat.ltb 0 div then
      let step := delta / float_of_nat div in
      if step =? 0 then map (fun v => (v / float_of_nat div) * delta) y
      else map (fun v => v * step) y
    else map (fun v => v * delta) y in
  let y := map (fun v => v + start) y in
  if Nat.ltb 1 num then removelast y ++ [stop] else y.

(** Rows of a boolean matrix in lexicographic order, [False] before [True]. *)
Fixpoint row_compare (a b : mask) : comparison :=
  match a, b with
  | [], [] => Eq
  | [], _ :: _ => Lt
  | _ :: _, [] => Gt
  | x :: a', y :: b' =>
      match x, y with
      | false, true => Lt
      | true, false => Gt
      | _, _ => row_compare a' b'
      end
  end.

Fixpoint insert_row (r : mask) (l : list mask) : list mask :=
  match l with
  | [] => [r]
  | s :: rest =>
      match row_compare r s with
      | Lt => r :: l
      | Eq => l
      | Gt => s :: insert_row r rest
      end
  end.

(** [np.unique(rows, axis=0)]: the distinct rows, sorted. *)
Definition np_unique (rows : list mask) : list mask := fold_right insert_row [] rows.

(** Strictly increasing lists of rows. *)
Definition row_lt (a b : mask) : Prop := row_compare a b = Lt.

Inductive ascending : list mask -> Prop :=
| ascending_nil : ascending []
| ascending_cons r l : Forall (row_lt r) l -> ascending l -> ascending (r :: l).

(** [a, b = l]. *)
Definition unpack2 {A : Type} (l : list A) : result (A * A) :=
  match l with
  | [a; b] => Ok (a, b)
  | _ => Raise ValueError_unpack
  end.

(** [l[i:j]]. *)
Definition slice {A : Type} (i j : nat) (l : list A) : list A :=
  firstn (j - i)%nat (skipn i l).

(** ** The pipeline *)

(** Line 43: both arrays indexed by the mask of samples where neither
    coordinate is NaN.  The mask is computed once per indexed array, as the
    list comprehension does. *)
Definition remove_nan (time signal : ndarray) : result (ndarray * ndarray) :=
  (time' <- (m <- np_logical_and (invert (np_isnan time)) (invert (np_isnan signal)) ;;
             getitem time m) ;;
   signal' <- (m <- np_logical_and (invert (np_isnan time)) (invert (np_isnan signal)) ;;
               getitem signal m) ;;
   Ok (time', signal'))%py.

(** The membership mask [time > t0 - n*w  and  time < t0 + n*w] of lines 48
    and 67. *)
Definition window_mask (time : ndarray) (arrival_time signal_width n_sigma : float) : result mask :=
  np_logical_and (np_greater time (arrival_time - n_sigma * signal_width))
                 (np_less time (arrival_time + n_sigma * signal_width)).

(** Line 48. *)
Definition region_of_interest_indeces (time : ndarray) (arrival_time signal_width : float) : result mask :=
  window_mask time arrival_time signal_width 3.5.

(** Line 52: [(background, background_SE)]. *)
Definition background_estimate (signal_background : ndarray) : float * float :=
  (np_mean signal_background,
   np_std signal_background / np_sqrt (float_of_nat (np_size signal_background))).

(** Line 67. *)
Definition roi_list (time : ndarray) (arrival_time signal_width : float) : result (list mask) :=
  (rows <- mapM (window_mask time arrival_time signal_width) (np_linspace 3.2 4.5 100) ;;
   Ok (np_unique rows))%py.

(** Line 71. *)
Definition roi_left (time : ndarray) (arrival_time signal_width : float) : result mask :=
  np_logical_and (np_less time (arrival_time - 3.5 * signal_width))
                 (np_greater time (arrival_time - 3 * 3.5 * signal_width)).

Definition model_function : Type := ndarray -> float -> float -> float -> float -> ndarray.

(** What the plotting block of lines 79-89 reads. *)
Record plot_data : Type := {
  plot_time : ndarray;
  plot_time_background : ndarray;
  plot_signal_background : ndarray;
  plot_time_of_interest : ndarray;
  plot_signal_of_interest : ndarray;
  plot_background : float;
  plot_fit_params : ndarray;
  plot_area : float;
  plot_area_SE : float
}.

Section Pipeline.

(** [np.exp] on a scalar. *)
Variable np_exp : float -> float.
(** [scipy.optimize.curve_fit(f, xdata, ydata, p0=..., bounds=...)],
    returning the fitted parameters and the covariance matrix. *)
Variable curve_fit :
  model_function -> ndarray -> ndarray -> ndarray -> ndarray * ndarray ->
  result (ndarray * list ndarray).
(** [scipy.integrate.simps(y, x)]. *)
Variable simps : ndarray -> ndarray -> result float.
(** The pyplot calls of lines 80-89. *)
Variable plt : plot_data -> result unit.

(** Lines 22-23. *)
Definition _gaussian_function (x : ndarray) (amplitude sigma location background : float) : ndarray :=
  map (fun xi =>
         amplitude * np_exp ((- np_square (xi - location)) / (2 * np_square sigma))
         + background) x.

(** Lines 15-38. *)
Definition _gaussian_fit (time signal : ndarray)
           (arrival_time_guess signal_width_guess background_guess : option float)
  : result (ndarray * ndarray) :=
  (arrival_time_guess <-
     match arrival_time_guess with
     | None => Ok (np_median time)
     | Some g => Ok g
     end ;;
   signal_width_guess <-
     match signal_width_guess with
     | None => hi <- np_max time ;; lo <- np_min time ;; Ok ((hi - lo) / 10)
     | Some g => Ok g
     end ;;
   background_guess <-
     match background_guess with
     | None => np_min signal
     | Some g => Ok g
     end ;;
   amplitude_guess <- (hi <- np_max signal ;; lo <- np_min signal ;; Ok (hi - lo)) ;;
   lower <- (lo <- np_min time ;;
             Ok [0; np_mean (np_diff time); lo; - infinity]) ;;
   upper <- (shi <- np_max signal ;; slo <- np_min signal ;;
             thi <- np_max time ;; tlo <- np_min time ;;
             thi' <- np_max time ;;
             Ok [10 * (shi - slo); thi - tlo; thi'; infinity]) ;;
   ' (fit_params, cov_matrix) <-
     curve_fit _gaussian_function time signal
               [amplitude_guess; signal_width_guess; arrival_time_guess; background_guess]
               (lower, upper) ;;
   Ok (fit_params, np_diagonal cov_matrix))%py.

(** Line 68. *)
Definition areas_vary_nsigma (time signal : ndarray) (background : float)
           (rois : list mask) : result ndarray :=
  mapM (fun roi =>
          (y <- getitem signal roi ;;
           x <- getitem time roi ;;
           simps (np_subtract y background) x)%py) rois.

(** Lines 67-69. *)
Definition area_SE_n_sigma (time signal : ndarray)
           (arrival_time signal_width background : float) : result float :=
  (rois <- roi_list time arrival_time signal_width ;;
   areas <- areas_vary_nsigma time signal background rois ;;
   Ok (np_std areas))%py.

(** Lines 71-73. *)
Definition area_SE_noiseROI (time signal : ndarray)
           (arrival_time signal_width : float) (signal_of_interest : ndarray)
  : result float :=
  (left <- roi_left time arrival_time signal_width ;;
   noise <- getitem signal left ;;
   let est_SE_ROI := np_std noise in
   Ok (est_SE_ROI / np_sqrt (float_of_nat (np_size signal_of_interest))))%py.

(** Lines 1-93. *)
Definition integrate_detector_signal (time signal : ndarray) (plot : bool)
           (arrival_time_guess signal_width_guess background_guess : option float)
  : result (float * float) :=
  (' (time, signal) <- remove_nan time signal ;;
   ' (fit_params, fit_params_SE) <-
     _gaussian_fit time signal arrival_time_guess signal_width_guess background_guess ;;
   ' (signal_width, arrival_time) <- unpack2 (slice 1 3 fit_params) ;;
   roi <- region_of_interest_indeces time arrival_time signal_width ;;
   time_of_interest <- getitem time roi ;;
   signal_of_interest <- getitem signal roi ;;
   time_background <- getitem time (invert roi) ;;
   signal_background <- getitem signal (invert roi) ;;
   let '(background, background_SE) := background_estimate signal_background in
   area <- simps (np_subtract signal_of_interest background) time_of_interest ;;
   area_SE_background <-
     simps (np_full (np_size time_of_interest) background_SE) time_of_interest ;;
   area_SE_n_sigma <- area_SE_n_sigma time signal arrival_time signal_width background ;;
   area_SE_noiseROI <-
     area_SE_noiseROI time signal arrival_time signal_width signal_of_interest ;;
   let area_SE := np_linalg_norm [area_SE_background; area_SE_n_sigma; area_SE_noiseROI] in
   _ <- (if plot
         then plt {| plot_time := time;
                     plot_time_background := time_background;
                     plot_signal_background := signal_background;
                     plot_time_of_interest := time_of_interest;
                     plot_signal_of_interest := signal_of_interest;
                     plot_background := background;
                     plot_fit_params := fit_params;
                     plot_area := area;
                     plot_area_SE := area_SE |}
         else Ok tt) ;;
   Ok (area, area_SE))%py.

End Pipeline.

(** ** One run of the pipeline, as a record of its intermediate values *)

Record run : Type := {
  run_time : ndarray;               (* cleaned, line 43 *)
  run_signal : ndarray;
  run_fit_params : ndarray;         (* line 45 *)
  run_fit_params_SE : ndarray;
  run_signal_width : float;         (* line 46 *)
  run_arrival_time : float;
  run_roi : mask;                   (* line 48 *)
  run_time_of_interest : ndarray;   (* line 49 *)
  run_signal_of_interest : ndarray;
  run_time_background : ndarray;    (* line 50 *)
  run_signal_background : ndarray;
  run_area : float;                 (* line 54 *)
  run_area_SE_background : float;   (* line 65 *)
  run_area_SE_n_sigma : float;      (* line 69 *)
  run_area_SE_noiseROI : float;     (* line 73 *)
}.

Definition run_background (r : run) : float :=
  fst (background_estimate (run_signal_background r)).
Definition run_background_SE (r : run) : float :=
  snd (background_estimate (run_signal_background r)).
(** Line 75. *)
Definition run_area_SE (r : run) : float :=
  np_linalg_norm [run_area_SE_background r; run_area_SE_n_sigma r; run_area_SE_noiseROI r].

Section Runs.

Variable np_exp : float -> float.
Variable curve_fit :
  model_function -> ndarray -> ndarray -> ndarray -> ndarray * ndarray ->
  result (ndarray * list ndarray).
Variable simps : ndarray -> ndarray -> result float.

(** [r] records a run of lines 43-75 on the given inputs in which every
    statement returned. *)
Definition run_of (time signal : ndarray)
           (arrival_time_guess signal_width_guess background_guess : option float)
           (r : run) : Prop :=
  remove_nan time signal = Ok (run_time r, run_signal r) /\
  _gaussian_fit np_exp curve_fit (run_time r) (run_signal r)
    arrival_time_guess signal_width_guess background_guess
  = Ok (run_fit_params r, run_fit_params_SE r) /\
  unpack2 (slice 1 3 (run_fit_params r)) = Ok (run_signal_width r, run_arrival_time r) /\
  region_of_interest_indeces (run_time r) (run_arrival_time r) (run_signal_width r)
  = Ok (run_roi r) /\
  getitem (run_time r) (run_roi r) = Ok (run_time_of_interest r) /\
  getitem (run_signal r) (run_roi r) = Ok (run_signal_of_interest r) /\
  getitem (run_time r) (invert (run_roi r)) = Ok (run_time_background r) /\
  getitem (run_signal r) (invert (run_roi r)) = Ok (run_signal_background r) /\
  simps (np_subtract (run_signal_of_interest r) (run_background r)) (run_time_of_interest r)
  = Ok (run_area r) /\
  simps (np_full (np_size (run_time_of_interest r)) (run_background_SE r))
        (run_time_of_interest r)
  = Ok (run_area_SE_background r) /\
  area_SE_n_sigma simps (run_time r) (run_signal r) (run_arrival_time r)
    (run_signal_width r) (run_background r)
  = Ok (run_area_SE_n_sigma r) /\
  area_SE_noiseROI (run_time r) (run_signal r) (run_arrival_time r)
    (run_signal_width r) (run_signal_of_interest r)
  = Ok (run_area_SE_noiseROI r).

End Runs.

(** ** Stand-ins for the external calls, used to run the pipeline on examples *)

(** A fitter that answers with fixed parameters and a fixed covariance. *)
Definition constant_fit (params : ndarray) (cov : list ndarray)
  : model_function -> ndarray -> ndarray -> ndarray -> ndarray * ndarray ->
    result (ndarray * list ndarray) :=
  fun _ _ _ _ _ => Ok (params, cov).

(** A fitter that answers with its own start vector followed by the bounds. *)
Definition echo_fit
  : model_function -> ndarray -> ndarray -> ndarray -> ndarray * ndarray ->
    result (ndarray * list ndarray) :=
  fun _ _ _ p0 bounds => Ok (p0, [fst bounds; snd bounds]).

(** Composite trapezoid rule, as a quadrature that always returns. *)
Fixpoint trapezoid (y x : ndarray) : float :=
  match y, x with
  | y0 :: ((y1 :: _) as y'), x0 :: ((x1 :: _) as x') =>
      (x1 - x0) * (y0 + y1) / 2 + trapezoid y' x'
  | _, _ => 0
  end.

Definition trapezoid_quadrature (y x : ndarray) : result float := Ok (trapezoid y x).

Definition no_plot (_ : plot_data) : result unit := Ok tt.
Definition failing_plot (_ : plot_data) : result unit := Raise (LibraryError 0).
Definition unit_exp (_ : float) : float := 1.

(** ** Predicates of the specification, for comparison with the code *)

(** A sample is kept by preprocessing when neither coordinate is NaN. *)
Definition defined_pair (p : float * float) : bool :=
  negb (is_nan (fst p)) && negb (is_nan (snd p)).

(** "Its time lies strictly within location +- n_sigma * width". *)
Definition strictly_within (location width n_sigma t : float) : bool :=
  (location - n_sigma * width <? t) && (t <? location + n_sigma * width).

(** "Its time lies strictly between location - 10.5 * width and
    location - 3.5 * width". *)
Definition left_of_roi (location width t : float) : bool :=
  (t <? location - 3.5 * width) && (location - 10.5 * width <? t).

(** Example traces. *)
Definition time11 : ndarray := [0; 1; 2; 3; 4; 5; 6; 7; 8; 9; 10].
Definition signal11 : ndarray := [1; 2; 4; 7; 9; 10; 9; 7; 4; 2; 1].
Definition time25 : ndarray :=
  [0; 1; 2; 3; 4; 5; 6; 7; 8; 9; 10; 11; 12; 13; 14; 15; 16; 17; 18; 19; 20;
   21; 22; 23; 24].
Definition signal25 : ndarray :=
  [1; 2; 1; 2; 1; 2; 1; 2; 1; 3; 7; 9; 10; 9; 7; 3; 1; 2; 1; 2; 1; 2; 1; 2; 1].
Definition cov4 : list ndarray :=
  [[4; 1; 0; 0]; [1; 9; 0; 0]; [0; 0; 16; 2]; [0; 0; 2; 25]].

(** A variant of line 68 that the code does not implement, kept for
    contrast: each window of the sweep subtracts the mean of its own
    complement instead of the one background of line 52. *)
Definition areas_own_complement (simps : ndarray -> ndarray -> result float)
           (time signal : ndarray) (rois : list mask) : result ndarray :=
  mapM (fun roi =>
          (y <- getitem signal roi ;;
           x <- getitem time roi ;;
           outside <- getitem signal (invert roi) ;;
           simps (np_subtract y (np_mean outside)) x)%py) rois.

(** Fit results used in the examples: a peak in the middle of [time25], and
    one so close to its start that no sample lies left of the window. *)
Definition fit25 := constant_fit [9; 1.5; 12; 1.5] cov4.
Definition fit25_early := constant_fit [9; 1.5; 4; 1.5] cov4.
(** A fit on [time11] whose 3.5-width window covers the whole trace. *)
Definition fit11_wide := constant_fit [9.5; 2.2; 5; 0.5] cov4.

(** Two answers of the fitter that agree on what line 46 reads: both raise
    the same exception, or both return parameters with the same entries at
    positions 1 and 2 (the width and the location). *)
Definition same_window {C D : Type}
           (r : result (ndarray * C)) (r' : result (ndarray * D)) : Prop :=
  match r, r' with
  | Ok (fit_params, _), Ok (fit_params', _) => slice 1 3 fit_params = slice 1 3 fit_params'
  | Raise e, Raise e' => e = e'
  | _, _ => False
  end.

(** Further stand-ins: a fitter that raises, and one that returns only two
    parameters. *)
Definition failing_fit
  : model_function -> ndarray -> ndarray -> ndarray -> ndarray * ndarray ->
    result (ndarray * list ndarray) :=
  fun _ _ _ _ _ => Raise (LibraryError 1).
Definition short_fit := constant_fit [9; 1.5] cov4.
(** The same window as [fit25] with another amplitude, background and
    covariance. *)
Definition fit25_other := constant_fit [100; 1.5; 12; -7] [[1; 0]; [0; 1]].

(** * Properties *)

(** ** The result monad *)

Lemma bind_Ok_inv {A B : Type} (m : result A) (k : A -> result B) (b : B) :
  bind m k = Ok b -> exists a, m = Ok a /\ k a = Ok b.
Proof.
  destruct m as [a|e]; simpl; intros H; [exists a; auto | discriminate].
Qed.

Lemma bind_ext {A B : Type} (m : result A) (k1 k2 : A -> result B) :
  (forall a, k1 a = k2 a) -> bind m k1 = bind m k2.
Proof.
  intros H; destruct m; simpl; auto.
Qed.

Lemma mapM_ext {A B : Type} (f g : A -> result B) (l : list A) :
  (forall a, f a = g a) -> mapM f l = mapM g l.
Proof.
  intros H; induction l as [|a l IH]; simpl; [reflexivity|].
  rewrite H, IH; reflexivity.
Qed.

Lemma mapM_pure {A B : Type} (f : A -> result B) (g : A -> B) (l : list A) :
  (forall a, In a l -> f a = Ok (g a)) -> mapM f l = Ok (map g l).
Proof.
  induction l as [|a l IH]; simpl; intros H; [reflexivity|].
  rewrite (H a (or_introl eq_refl)); simpl.
  rewrite IH by (intros; apply H; right; assumption); reflexivity.
Qed.

Lemma mapM_Forall2 {A B : Type} (f : A -> result B) (l : list A) (bs : list B) :
  mapM f l = Ok bs -> Forall2 (fun a b => f a = Ok b) l bs.
Proof.
  revert bs; induction l as [|a l IH]; simpl; intros bs H.
  - inversion H; constructor.
  - apply bind_Ok_inv in H as (b & Hb & H).
    apply bind_Ok_inv in H as (bs' & Hbs & H).
    inversion H; subst; constructor; auto.
Qed.

(** ** Masks and boolean indexing *)

Lemma zip_with_map {A B C D : Type} (f : B -> C -> D) (g : A -> B) (h : A -> C) (l : list A) :
  zip_with f (map g l) (map h l) = map (fun a => f (g a) (h a)) l.
Proof.
  induction l as [|a l IH]; simpl; [reflexivity | rewrite IH; reflexivity].
Qed.

Lemma zip_with_length {A B C : Type} (f : A -> B -> C) (a : list A) (b : list B) :
  length a = length b -> length (zip_with f a b) = length a.
Proof.
  revert b; induction a as [|x a IH]; intros [|y b]; simpl; intros H;
    try reflexivity; try discriminate.
  f_equal; apply IH; lia.
Qed.

Lemma np_logical_and_same_length (a b : mask) :
  length a = length b -> np_logical_and a b = Ok (zip_with andb a b).
Proof.
  intros H; unfold np_logical_and.
  rewrite H, Nat.eqb_refl; reflexivity.
Qed.

Lemma select_nil_mask {A : Type} (a : list A) : select a [] = [].
Proof.
  destruct a; reflexivity.
Qed.

Lemma getitem_same_length {A : Type} (a : list A) (m : mask) :
  length a = length m -> getitem a m = Ok (select a m).
Proof.
  intros H; unfold getitem; destruct m as [|b m].
  - rewrite select_nil_mask; reflexivity.
  - rewrite H, Nat.eqb_refl; reflexivity.
Qed.

Lemma getitem_empty_mask {A : Type} (a : list A) : getitem a [] = Ok [].
Proof.
  reflexivity.
Qed.

Lemma getitem_mismatch {A : Type} (a : list A) (m : mask) :
  m <> [] -> length a <> length m -> getitem a m = Raise IndexError_boolean_index.
Proof.
  intros Hm H; unfold getitem; destruct m as [|b m]; [congruence|].
  apply Nat.eqb_neq in H; rewrite H; reflexivity.
Qed.

Lemma getitem_Ok_inv {A : Type} (a : list A) (m : mask) (r : list A) :
  getitem a m = Ok r -> (m = [] \/ length a = length m) /\ r = select a m.
Proof.
  unfold getitem; destruct m as [|b m]; intros H.
  - inversion H; rewrite select_nil_mask; auto.
  - destruct (Nat.eqb (length a) (length (b :: m))) eqn:E; [|discriminate].
    apply Nat.eqb_eq in E; inversion H; auto.
Qed.

Lemma select_map_filter {A : Type} (p : A -> bool) (l : list A) :
  select l (map p l) = filter p l.
Proof.
  induction l as [|a l IH]; simpl; [reflexivity|].
  destruct (p a); rewrite IH; reflexivity.
Qed.

Lemma select_map {A B : Type} (f : A -> B) (l : list A) (m : mask) :
  select (map f l) m = map f (select l m).
Proof.
  revert m; induction l as [|a l IH]; intros [|b m]; simpl; try reflexivity.
  destruct b; simpl; rewrite IH; reflexivity.
Qed.

Lemma select_combine {A B : Type} (a : list A) (b : list B) (m : mask) :
  combine (select a m) (select b m) = select (combine a b) m.
Proof.
  revert b m; induction a as [|x a IH]; intros [|y b] [|c m]; simpl;
    try reflexivity.
  all: destruct c; simpl; rewrite ?combine_nil, ?IH; reflexivity.
Qed.

Lemma map_fst_combine_eq {A B : Type} (a : list A) (b : list B) :
  length a = length b -> map fst (combine a b) = a.
Proof.
  revert b; induction a as [|x a IH]; intros [|y b]; simpl; intros H;
    try reflexivity; try discriminate.
  f_equal; apply IH; lia.
Qed.

Lemma map_snd_combine_eq {A B : Type} (a : list A) (b : list B) :
  length a = length b -> map snd (combine a b) = b.
Proof.
  revert b; induction a as [|x a IH]; intros [|y b]; simpl; intros H;
    try reflexivity; try discriminate.
  f_equal; apply IH; lia.
Qed.

Lemma combine_map_fst_snd {A B : Type} (l : list (A * B)) :
  combine (map fst l) (map snd l) = l.
Proof.
  induction l as [|[a b] l IH]; simpl; [reflexivity | rewrite IH; reflexivity].
Qed.

(** ** Preprocessing (line 43) *)

Lemma nan_mask_lengths (time signal : ndarray) :
  length (invert (np_isnan time)) = length time /\
  length (invert (np_isnan signal)) = length signal.
Proof.
  unfold invert, np_isnan; rewrite !length_map; auto.
Qed.

Lemma nan_mask_defined (time signal : ndarray) :
  length time = length signal ->
  np_logical_and (invert (np_isnan time)) (invert (np_isnan signal))
  = Ok (map defined_pair (combine time signal)).
Proof.
  intros H.
  rewrite np_logical_and_same_length
    by (destruct (nan_mask_lengths time signal) as [-> ->]; exact H).
  f_equal; unfold invert, np_isnan.
  revert signal H; induction time as [|t time IH]; intros [|s signal]; simpl;
    intros H; try reflexivity; try discriminate.
  rewrite IH by lia; reflexivity.
Qed.

(** C5: on inputs of equal length, preprocessing returns exactly the
    index-aligned pairs in which neither the time nor the signal is NaN, in
    their original order and with repetitions kept; the two outputs have the
    same length and are the two projections of the kept pairs. *)
Theorem remove_nan_keeps_defined_pairs (time signal : ndarray) :
  length time = length signal ->
  exists time' signal',
    remove_nan time signal = Ok (time', signal') /\
    combine time' signal' = filter defined_pair (combine time signal) /\
    time' = map fst (filter defined_pair (combine time signal)) /\
    signal' = map snd (filter defined_pair (combine time signal)) /\
    length time' = length signal'.
Proof.
  intros H.
  set (kept := filter defined_pair (combine time signal)).
  assert (Hlen : length (combine time signal) = length time)
    by (rewrite length_combine; lia).
  assert (Ht : getitem time (map defined_pair (combine time signal)) = Ok (map fst kept)).
  { rewrite getitem_same_length by (rewrite length_map; lia).
    rewrite <- (map_fst_combine_eq time signal H) at 1.
    rewrite select_map, select_map_filter; reflexivity. }
  assert (Hs : getitem signal (map defined_pair (combine time signal)) = Ok (map snd kept)).
  { rewrite getitem_same_length by (rewrite length_map; lia).
    rewrite <- (map_snd_combine_eq time signal H) at 1.
    rewrite select_map, select_map_filter; reflexivity. }
  exists (map fst kept), (map snd kept); repeat split.
  - unfold remove_nan; rewrite (nan_mask_defined time signal H); simpl.
    rewrite Ht, Hs; reflexivity.
  - apply combine_map_fst_snd.
  - rewrite !length_map; reflexivity.
Qed.

Lemma remove_nan_keeps_defined_pairs_witness :
  length [1; nan; 3; 3; 2] = length [4; 5; nan; 4; 4] /\
  exists time' signal',
    remove_nan [1; nan; 3; 3; 2] [4; 5; nan; 4; 4] = Ok (time', signal') /\
    combine time' signal'
    = filter defined_pair (combine [1; nan; 3; 3; 2] [4; 5; nan; 4; 4]) /\
    time' = map fst (filter defined_pair (combine [1; nan; 3; 3; 2] [4; 5; nan; 4; 4])) /\
    signal' = map snd (filter defined_pair (combine [1; nan; 3; 3; 2] [4; 5; nan; 4; 4])) /\
    length time' = length signal'.
Proof.
  split; [reflexivity|].
  apply (remove_nan_keeps_defined_pairs [1; nan; 3; 3; 2] [4; 5; nan; 4; 4]).
  reflexivity.
Defined.

Example remove_nan_example :
  remove_nan [1; nan; 3; 3; 2] [4; 5; nan; 4; 4] = Ok ([1; 3; 2], [4; 4; 4]).
Proof. reflexivity. Qed.

(** ** Inputs of different length *)

(** Unless one input is empty and the other has one sample, line 43 raises. *)
Lemma remove_nan_length_mismatch (time signal : ndarray) :
  length time <> length signal ->
  (length time + length signal)%nat <> 1%nat ->
  exists e, InputShapeError e /\ remove_nan time signal = Raise e.
Proof.
  intros H H1; unfold remove_nan.
  destruct (nan_mask_lengths time signal) as [Ht Hs].
  unfold np_logical_and.
  assert (E : Nat.eqb (length (invert (np_isnan time)))
                      (length (invert (np_isnan signal))) = false)
    by (apply Nat.eqb_neq; lia).
  rewrite E.
  destruct (invert (np_isnan time)) as [|x [|x' mt]] eqn:Emt.
  - (* no time sample *)
    destruct (invert (np_isnan signal)) as [|y [|y' ms]] eqn:Ems; simpl in *.
    + lia.
    + lia.
    + exists ValueError_broadcast; split; [left|]; reflexivity.
  - (* one time sample, broadcast over the signal mask *)
    exists IndexError_boolean_index; split; [right; reflexivity|].
    destruct (invert (np_isnan signal)) as [|y ms] eqn:Ems; [simpl in *; lia|].
    cbn [bind]; rewrite getitem_mismatch; [reflexivity | simpl; discriminate |].
    rewrite length_map; simpl in *; lia.
  - destruct (invert (np_isnan signal)) as [|y [|y' ms]] eqn:Ems.
    + exists ValueError_broadcast; split; [left|]; reflexivity.
    + (* one signal sample, broadcast over the time mask *)
      exists IndexError_boolean_index; split; [right; reflexivity|].
      cbn [bind].
      rewrite getitem_same_length by (rewrite length_map; simpl in *; lia).
      cbn [bind].
      rewrite getitem_mismatch; [reflexivity | simpl; discriminate |].
      rewrite length_map; simpl in *; lia.
    + exists ValueError_broadcast; split; [left|]; reflexivity.
Qed.

(** One input empty, the other with one sample: the one-sample mask is
    broadcast to the empty shape and the empty mask selects nothing. *)
Lemma remove_nan_empty_and_single (time signal : ndarray) :
  (length time + length signal)%nat = 1%nat ->
  remove_nan time signal = Ok ([], []).
Proof.
  destruct time as [|t [|t' time]], signal as [|s [|s' signal]]; simpl;
    intros H; try lia; reflexivity.
Qed.

Section Mismatch.

Variable np_exp : float -> float.
Variable curve_fit :
  model_function -> ndarray -> ndarray -> ndarray -> ndarray * ndarray ->
  result (ndarray * list ndarray).
Variable simps : ndarray -> ndarray -> result float.
Variable plt : plot_data -> result unit.

(** C1, as the code has it: when the two inputs differ in length the call
    always raises.  Unless one input is empty and the other has exactly one
    sample, line 43 raises a shape error (NumPy's broadcasting or
    boolean-index error) and the pipeline fails with it, whatever the
    fitter, the quadrature and the plotting would have done.  When one
    input is empty and the other has one sample, line 43 returns the empty
    trace and the call raises the zero-size ValueError of the fitter. *)
Theorem length_mismatch_fails (time signal : ndarray) (plot : bool)
        (arrival_time_guess signal_width_guess background_guess : option float) :
  length time <> length signal ->
  exists e,
    integrate_detector_signal np_exp curve_fit simps plt time signal plot
      arrival_time_guess signal_width_guess background_guess = Raise e /\
    ((length time + length signal)%nat <> 1%nat ->
     InputShapeError e /\ remove_nan time signal = Raise e) /\
    ((length time + length signal)%nat = 1%nat ->
     remove_nan time signal = Ok ([], []) /\ e = ValueError_zero_size).
Proof.
  intros H.
  destruct (Nat.eq_dec (length time + length signal) 1) as [E|E].
  - exists ValueError_zero_size.
    pose proof (remove_nan_empty_and_single _ _ E) as Hr.
    split; [|split; [intros; contradiction | auto]].
    unfold integrate_detector_signal; rewrite Hr; cbn [bind].
    unfold _gaussian_fit.
    destruct arrival_time_guess, signal_width_guess, background_guess; reflexivity.
  - destruct (remove_nan_length_mismatch time signal H E) as (e & He & Hr).
    exists e; split; [|split; [auto | intros; contradiction]].
    unfold integrate_detector_signal; rewrite Hr; reflexivity.
Qed.

End Mismatch.

Lemma length_mismatch_fails_witness :
  length [1; 2; 3] <> length [4; 5] /\
  exists e,
    integrate_detector_signal unit_exp echo_fit trapezoid_quadrature no_plot
      [1; 2; 3] [4; 5] true None None None = Raise e /\
    ((length [1; 2; 3] + length [4; 5])%nat <> 1%nat ->
     InputShapeError e /\ remove_nan [1; 2; 3] [4; 5] = Raise e) /\
    ((length [1; 2; 3] + length [4; 5])%nat = 1%nat ->
     remove_nan [1; 2; 3] [4; 5] = Ok ([], []) /\ e = ValueError_zero_size).
Proof.
  split; [simpl; lia|].
  apply (length_mismatch_fails unit_exp echo_fit trapezoid_quadrature no_plot
           [1; 2; 3] [4; 5] true None None None).
  simpl; lia.
Defined.

(** An empty array against a one-sample array, either way round: the
    lengths differ, line 43 returns the empty trace without raising, and the
    exception of the call is the zero-size ValueError of the fitter, which
    is not a shape error.  A one-sample array against a longer one does
    raise at line 43. *)
Lemma empty_against_single_sample :
  length (@nil float) <> length [1] /\
  remove_nan [] [1] = Ok ([], []) /\
  remove_nan [1] [] = Ok ([], []) /\
  integrate_detector_signal unit_exp echo_fit trapezoid_quadrature no_plot
    [] [1] false None None None = Raise ValueError_zero_size /\
  integrate_detector_signal unit_exp echo_fit trapezoid_quadrature no_plot
    [1] [] false None None None = Raise ValueError_zero_size /\
  ~ InputShapeError ValueError_zero_size /\
  remove_nan [1] [4; 5; 6] = Raise IndexError_boolean_index.
Proof.
  repeat split; try reflexivity; try discriminate.
  intros [H|H]; discriminate.
Qed.

(** ** The region of interest (lines 48-50) *)

Lemma window_mask_spec (time : ndarray) (arrival_time signal_width n_sigma : float) :
  window_mask time arrival_time signal_width n_sigma
  = Ok (map (strictly_within arrival_time signal_width n_sigma) time).
Proof.
  unfold window_mask, np_greater, np_less.
  rewrite np_logical_and_same_length by (rewrite !length_map; reflexivity).
  rewrite zip_with_map; reflexivity.
Qed.

Lemma select_by_key {A B : Type} (p : A -> bool) (a : list A) (b : list B) :
  length a = length b ->
  select b (map p a) = map snd (filter (fun q => p (fst q)) (combine a b)).
Proof.
  revert b; induction a as [|x a IH]; intros [|y b]; simpl; intros H;
    try reflexivity; try discriminate.
  destruct (p x); simpl; rewrite IH by lia; reflexivity.
Qed.

Lemma filter_fst_combine {A B : Type} (p : A -> bool) (a : list A) (b : list B) :
  length a = length b ->
  map fst (filter (fun q => p (fst q)) (combine a b)) = filter p a.
Proof.
  revert b; induction a as [|x a IH]; intros [|y b]; simpl; intros H;
    try reflexivity; try discriminate.
  destruct (p x); simpl; rewrite IH by lia; reflexivity.
Qed.

Lemma filter_complement_perm {A : Type} (p : A -> bool) (l : list A) :
  Permutation (filter p l ++ filter (fun x => negb (p x)) l) l.
Proof.
  induction l as [|a l IH]; simpl; [constructor|].
  destruct (p a); simpl.
  - constructor; exact IH.
  - apply Permutation_sym, Permutation_cons_app, Permutation_sym, IH.
Qed.

Lemma invert_map {A : Type} (p : A -> bool) (l : list A) :
  invert (map p l) = map (fun x => negb (p x)) l.
Proof.
  unfold invert; rewrite map_map; reflexivity.
Qed.

Lemma nth_invert (m : mask) (i : nat) :
  i < length m -> nth i (invert m) false = negb (nth i m false).
Proof.
  intros H; unfold invert.
  rewrite (nth_indep _ false (negb false)) by (rewrite length_map; exact H).
  apply map_nth.
Qed.

(** C4: with [inside t] the test "t lies strictly within location +- 3.5 *
    width" (both comparisons strict, evaluated in binary64 as the code does),
    the mask of line 48 marks sample [i] exactly when [inside (time[i])];
    the region of interest holds the (time, signal) pairs that pass the test
    and the background region those that fail it, each in trace order; every
    index is in exactly one of the two masks, and the two regions together
    are a rearrangement of the cleaned trace. *)
Theorem roi_partition (time signal : ndarray) (location width : float) :
  length time = length signal ->
  let inside := strictly_within location width 3.5 in
  let pairs := combine time signal in
  let roi_pairs := filter (fun q => inside (fst q)) pairs in
  let background_pairs := filter (fun q => negb (inside (fst q))) pairs in
  exists roi,
    region_of_interest_indeces time location width = Ok roi /\
    roi = map inside time /\
    getitem time roi = Ok (map fst roi_pairs) /\
    getitem signal roi = Ok (map snd roi_pairs) /\
    getitem time (invert roi) = Ok (map fst background_pairs) /\
    getitem signal (invert roi) = Ok (map snd background_pairs) /\
    (forall i, i < length time -> nth i (invert roi) false = negb (nth i roi false)) /\
    Permutation (roi_pairs ++ background_pairs) pairs /\
    (length roi_pairs + length background_pairs)%nat = length time.
Proof.
  intros H inside pairs roi_pairs background_pairs.
  exists (map inside time).
  assert (Hperm : Permutation (roi_pairs ++ background_pairs) pairs)
    by apply (filter_complement_perm (fun q => inside (fst q)) pairs).
  repeat split.
  - apply window_mask_spec.
  - rewrite getitem_same_length by (rewrite length_map; reflexivity).
    rewrite select_map_filter.
    unfold roi_pairs, pairs; rewrite filter_fst_combine by exact H; reflexivity.
  - rewrite getitem_same_length by (rewrite length_map; lia).
    rewrite select_by_key by exact H; reflexivity.
  - rewrite invert_map.
    rewrite getitem_same_length by (rewrite length_map; reflexivity).
    rewrite select_map_filter.
    unfold background_pairs, pairs.
    rewrite (filter_fst_combine (fun t => negb (inside t))) by exact H; reflexivity.
  - rewrite invert_map.
    rewrite getitem_same_length by (rewrite length_map; lia).
    rewrite (select_by_key (fun t => negb (inside t))) by exact H; reflexivity.
  - intros i Hi; apply nth_invert; rewrite length_map; exact Hi.
  - exact Hperm.
  - apply Permutation_length in Hperm.
    rewrite length_app in Hperm; rewrite Hperm.
    unfold pairs; rewrite length_combine; lia.
Qed.

Lemma roi_partition_witness :
  length time11 = length signal11 /\
  exists roi,
    region_of_interest_indeces time11 5 0.5 = Ok roi /\
    roi = map (strictly_within 5 0.5 3.5) time11 /\
    getitem time11 roi = Ok [4; 5; 6] /\
    getitem signal11 roi = Ok [9; 10; 9] /\
    getitem time11 (invert roi) = Ok [0; 1; 2; 3; 7; 8; 9; 10] /\
    getitem signal11 (invert roi) = Ok [1; 2; 4; 7; 7; 4; 2; 1] /\
    (forall i, i < length time11 -> nth i (invert roi) false = negb (nth i roi false)) /\
    Permutation
      (filter (fun q => strictly_within 5 0.5 3.5 (fst q)) (combine time11 signal11)
       ++ filter (fun q => negb (strictly_within 5 0.5 3.5 (fst q))) (combine time11 signal11))
      (combine time11 signal11) /\
    (length (filter (fun q => strictly_within 5 0.5 3.5 (fst q)) (combine time11 signal11))
     + length (filter (fun q => negb (strictly_within 5 0.5 3.5 (fst q))) (combine time11 signal11)))%nat
    = length time11.
Proof.
  split; [reflexivity|].
  apply (roi_partition time11 signal11 5 0.5); reflexivity.
Defined.

(** ** The fitter (lines 15-38) *)

Lemma nth_map_seq {A : Type} (f : nat -> A) (n i : nat) (d : A) :
  i < n -> nth i (map f (seq 0 n)) d = f i.
Proof.
  intros H.
  rewrite (nth_indep _ d (f 0%nat)) by (rewrite length_map, length_seq; exact H).
  rewrite (map_nth f (seq 0 n) 0%nat i), seq_nth by exact H; reflexivity.
Qed.

Lemma np_diagonal_nth (m : list ndarray) (i : nat) :
  i < length (np_diagonal m) ->
  nth i (np_diagonal m) 0 = nth i (nth i m []) 0.
Proof.
  unfold np_diagonal; rewrite length_map, length_seq; intros H.
  rewrite nth_map_seq by exact H; reflexivity.
Qed.

Lemma np_min_nonempty (a : ndarray) : a <> [] -> exists v, np_min a = Ok v.
Proof.
  destruct a as [|x r]; [congruence | intros _; eexists; reflexivity].
Qed.

Lemma np_max_nonempty (a : ndarray) : a <> [] -> exists v, np_max a = Ok v.
Proof.
  destruct a as [|x r]; [congruence | intros _; eexists; reflexivity].
Qed.

Section Fitter.

Variable np_exp : float -> float.
Variable curve_fit :
  model_function -> ndarray -> ndarray -> ndarray -> ndarray * ndarray ->
  result (ndarray * list ndarray).

(** C3: whenever the fitter returns, its second component is the diagonal
    of the covariance matrix that [curve_fit] returned, entry for entry:
    [fit_params_SE[i] = cov_matrix[i][i]], with no square root taken. *)
Theorem fit_uncertainty_is_covariance_diagonal (time signal : ndarray)
        (arrival_time_guess signal_width_guess background_guess : option float)
        (fit_params fit_params_SE : ndarray) :
  _gaussian_fit np_exp curve_fit time signal
    arrival_time_guess signal_width_guess background_guess
  = Ok (fit_params, fit_params_SE) ->
  exists p0 bounds cov_matrix,
    curve_fit (_gaussian_function np_exp) time signal p0 bounds
    = Ok (fit_params, cov_matrix) /\
    fit_params_SE = np_diagonal cov_matrix /\
    length fit_params_SE = Nat.min (length cov_matrix) (length (hd [] cov_matrix)) /\
    forall i, i < length fit_params_SE ->
              nth i fit_params_SE 0 = nth i (nth i cov_matrix []) 0.
Proof.
  unfold _gaussian_fit; intros H.
  do 6 (apply bind_Ok_inv in H as (? & _ & H)).
  apply bind_Ok_inv in H as ([params cov] & Hfit & H).
  inversion H; subst.
  do 3 eexists; split; [exact Hfit|].
  split; [reflexivity|]; split.
  - unfold np_diagonal; rewrite length_map, length_seq; reflexivity.
  - intros i Hi; apply np_diagonal_nth; exact Hi.
Qed.

(** C6, for a cleaned trace that is not empty: the fitter is one call of
    [curve_fit] on the Gaussian model and the trace, started from
    [amplitude; width; arrival time; background] where the amplitude is
    always [max(signal) - min(signal)] and the other three are the
    caller's guesses or, when absent, [(max(time) - min(time)) / 10],
    [median(time)] and [min(signal)]; the lower bounds are
    [0; mean(diff(time)); min(time); -inf] and the upper bounds
    [10 * (max(signal) - min(signal)); max(time) - min(time); max(time); +inf]. *)
Theorem fit_call_arguments (time signal : ndarray)
        (arrival_time_guess signal_width_guess background_guess : option float) :
  time <> [] -> signal <> [] ->
  exists tmin tmax smin smax,
    np_min time = Ok tmin /\ np_max time = Ok tmax /\
    np_min signal = Ok smin /\ np_max signal = Ok smax /\
    _gaussian_fit np_exp curve_fit time signal
      arrival_time_guess signal_width_guess background_guess
    = (' (fit_params, cov_matrix) <-
         curve_fit (_gaussian_function np_exp) time signal
           [smax - smin;
            match signal_width_guess with Some g => g | None => (tmax - tmin) / 10 end;
            match arrival_time_guess with Some g => g | None => np_median time end;
            match background_guess with Some g => g | None => smin end]
           ([0; np_mean (np_diff time); tmin; - infinity],
            [10 * (smax - smin); tmax - tmin; tmax; infinity]) ;;
       Ok (fit_params, np_diagonal cov_matrix))%py.
Proof.
  intros Ht Hs.
  destruct (np_min_nonempty Ht) as (tmin & Htmin).
  destruct (np_max_nonempty Ht) as (tmax & Htmax).
  destruct (np_min_nonempty Hs) as (smin & Hsmin).
  destruct (np_max_nonempty Hs) as (smax & Hsmax).
  exists tmin, tmax, smin, smax; repeat split; auto.
  unfold _gaussian_fit.
  rewrite Htmin, Htmax, Hsmin, Hsmax.
  destruct arrival_time_guess, signal_width_guess, background_guess; reflexivity.
Qed.

End Fitter.

Lemma fit_uncertainty_is_covariance_diagonal_witness :
  _gaussian_fit unit_exp (constant_fit [9.5; 0.5; 5; 0.5] cov4) time11 signal11
    None None None
  = Ok ([9.5; 0.5; 5; 0.5], [4; 9; 16; 25]) /\
  exists p0 bounds cov_matrix,
    constant_fit [9.5; 0.5; 5; 0.5] cov4 (_gaussian_function unit_exp)
      time11 signal11 p0 bounds
    = Ok ([9.5; 0.5; 5; 0.5], cov_matrix) /\
    [4; 9; 16; 25] = np_diagonal cov_matrix /\
    length [4; 9; 16; 25] = Nat.min (length cov_matrix) (length (hd [] cov_matrix)) /\
    forall i, i < length [4; 9; 16; 25] ->
              nth i [4; 9; 16; 25] 0 = nth i (nth i cov_matrix []) 0.
Proof.
  split; [reflexivity|].
  apply (fit_uncertainty_is_covariance_diagonal unit_exp
           (constant_fit [9.5; 0.5; 5; 0.5] cov4) time11 signal11 None None None).
  reflexivity.
Defined.

Lemma fit_call_arguments_witness :
  time11 <> [] /\ signal11 <> [] /\
  exists tmin tmax smin smax,
    np_min time11 = Ok tmin /\ np_max time11 = Ok tmax /\
    np_min signal11 = Ok smin /\ np_max signal11 = Ok smax /\
    _gaussian_fit unit_exp echo_fit time11 signal11 None (Some 2) None
    = (' (fit_params, cov_matrix) <-
         echo_fit (_gaussian_function unit_exp) time11 signal11
           [smax - smin; 2; np_median time11; smin]
           ([0; np_mean (np_diff time11); tmin; - infinity],
            [10 * (smax - smin); tmax - tmin; tmax; infinity]) ;;
       Ok (fit_params, np_diagonal cov_matrix))%py.
Proof.
  split; [discriminate|]; split; [discriminate|].
  apply (fit_call_arguments unit_exp echo_fit (time := time11) (signal := signal11)
           None (Some 2) None); discriminate.
Defined.

Example fit_call_arguments_example :
  _gaussian_fit unit_exp echo_fit time11 signal11 None None None
  = Ok ([9; 1; 5; 1], [0; 10]).
Proof. reflexivity. Qed.

(** On an empty cleaned trace the fitter raises at its first [np.max] or
    [np.min] and never reaches [curve_fit], with or without guesses. *)
Lemma fit_empty_trace_raises :
  _gaussian_fit unit_exp echo_fit [] [] None None None = Raise ValueError_zero_size /\
  _gaussian_fit unit_exp echo_fit [] [] (Some 1) (Some 1) (Some 0)
  = Raise ValueError_zero_size /\
  echo_fit (_gaussian_function unit_exp) [] [] [0; 1; 1; 0] ([0; 0; 0; 0], [1; 1; 1; 1])
  = Ok ([0; 1; 1; 0], [[0; 0; 0; 0]; [1; 1; 1; 1]]).
Proof. repeat split. Qed.

(** ** Runs of the whole pipeline *)

Section RunFacts.

Variable np_exp : float -> float.
Variable curve_fit :
  model_function -> ndarray -> ndarray -> ndarray -> ndarray * ndarray ->
  result (ndarray * list ndarray).
Variable simps : ndarray -> ndarray -> result float.
Variable plt : plot_data -> result unit.

(** A call that returns went through a run, and returns its area and the
    norm of its three contributions. *)
Lemma integrate_Ok_run (time signal : ndarray) (plot : bool)
      (arrival_time_guess signal_width_guess background_guess : option float)
      (area area_SE : float) :
  integrate_detector_signal np_exp curve_fit simps plt time signal plot
    arrival_time_guess signal_width_guess background_guess = Ok (area, area_SE) ->
  exists r,
    run_of np_exp curve_fit simps time signal
      arrival_time_guess signal_width_guess background_guess r /\
    run_area r = area /\ run_area_SE r = area_SE.
Proof.
  unfold integrate_detector_signal; intros H.
  apply bind_Ok_inv in H as ([t s] & H1 & H).
  apply bind_Ok_inv in H as ([fp fse] & H2 & H).
  apply bind_Ok_inv in H as ([w t0] & H3 & H).
  apply bind_Ok_inv in H as (roi & H4 & H).
  apply bind_Ok_inv in H as (toi & H5 & H).
  apply bind_Ok_inv in H as (soi & H6 & H).
  apply bind_Ok_inv in H as (tb & H7 & H).
  apply bind_Ok_inv in H as (sb & H8 & H).
  cbv beta in H.
  destruct (background_estimate sb) as [bg bgse] eqn:Ebg.
  apply bind_Ok_inv in H as (a & H9 & H).
  apply bind_Ok_inv in H as (c1 & H10 & H).
  apply bind_Ok_inv in H as (c2 & H11 & H).
  apply bind_Ok_inv in H as (c3 & H12 & H).
  apply bind_Ok_inv in H as (u & _ & H).
  inversion H; subst.
  exists {| run_time := t; run_signal := s; run_fit_params := fp;
            run_fit_params_SE := fse; run_signal_width := w;
            run_arrival_time := t0; run_roi := roi;
            run_time_of_interest := toi; run_signal_of_interest := soi;
            run_time_background := tb; run_signal_background := sb;
            run_area := area; run_area_SE_background := c1;
            run_area_SE_n_sigma := c2; run_area_SE_noiseROI := c3 |}.
  unfold run_of, run_background, run_background_SE, run_area_SE;
    cbn [run_time run_signal run_fit_params run_fit_params_SE run_signal_width
         run_arrival_time run_roi run_time_of_interest run_signal_of_interest
         run_time_background run_signal_background run_area
         run_area_SE_background run_area_SE_n_sigma run_area_SE_noiseROI].
  rewrite Ebg; cbn [fst snd]; repeat split; assumption.
Qed.

(** Conversely a run is what a call without plotting returns. *)
Lemma run_integrate_Ok (time signal : ndarray)
      (arrival_time_guess signal_width_guess background_guess : option float)
      (r : run) :
  run_of np_exp curve_fit simps time signal
    arrival_time_guess signal_width_guess background_guess r ->
  integrate_detector_signal np_exp curve_fit simps plt time signal false
    arrival_time_guess signal_width_guess background_guess
  = Ok (run_area r, run_area_SE r).
Proof.
  unfold run_of, run_background, run_background_SE, run_area_SE.
  intros (H1 & H2 & H3 & H4 & H5 & H6 & H7 & H8 & H9 & H10 & H11 & H12).
  unfold integrate_detector_signal.
  rewrite H1; cbn [bind]. rewrite H2; cbn [bind]. rewrite H3; cbn [bind].
  rewrite H4; cbn [bind]. rewrite H5; cbn [bind]. rewrite H6; cbn [bind].
  rewrite H7; cbn [bind]. rewrite H8; cbn [bind].
  destruct (background_estimate (run_signal_background r)) as [bg bgse].
  cbn [fst snd] in *.
  rewrite H9; cbn [bind]. rewrite H10; cbn [bind].
  rewrite H11; cbn [bind]. rewrite H12; cbn [bind].
  reflexivity.
Qed.

End RunFacts.

Lemma select_length_eq {A B : Type} (a : list A) (b : list B) (m : mask) :
  length a = length m -> length b = length m ->
  length (select a m) = length (select b m).
Proof.
  revert a b; induction m as [|c m IH]; intros [|x a] [|y b]; simpl;
    intros Ha Hb; try reflexivity; try discriminate.
  destruct c; simpl; rewrite (IH a b) by lia; reflexivity.
Qed.

Lemma remove_nan_Ok_length (time signal time' signal' : ndarray) :
  remove_nan time signal = Ok (time', signal') -> length time' = length signal'.
Proof.
  unfold remove_nan; intros H.
  apply bind_Ok_inv in H as (t & Ht & H).
  apply bind_Ok_inv in H as (s & Hs & H).
  inversion H; subst; clear H.
  apply bind_Ok_inv in Ht as (m & Hm & Ht).
  rewrite Hm in Hs; cbn [bind] in Hs.
  apply getitem_Ok_inv in Ht as (Lt & ->).
  apply getitem_Ok_inv in Hs as (Ls & ->).
  destruct Lt as [->|Lt]; [rewrite !select_nil_mask; reflexivity|].
  destruct Ls as [->|Ls]; [rewrite !select_nil_mask; reflexivity|].
  apply select_length_eq; assumption.
Qed.

(** ** Distinct rows: [np.unique(..., axis=0)] *)

Lemma row_compare_eq (a b : mask) : row_compare a b = Eq -> a = b.
Proof.
  revert b; induction a as [|x a IH]; intros [|y b]; simpl; intros H;
    try reflexivity; try discriminate.
  destruct x, y; try discriminate; f_equal; apply IH; exact H.
Qed.

Lemma row_compare_refl (a : mask) : row_compare a a = Eq.
Proof.
  induction a as [|x a IH]; simpl; [reflexivity | destruct x; exact IH].
Qed.

Lemma row_compare_antisym (a b : mask) :
  row_compare b a = CompOpp (row_compare a b).
Proof.
  revert b; induction a as [|x a IH]; intros [|y b]; simpl; try reflexivity.
  destruct x, y; simpl; auto.
Qed.

Lemma row_compare_trans (a b c : mask) :
  row_compare a b = Lt -> row_compare b c = Lt -> row_compare a c = Lt.
Proof.
  revert b c; induction a as [|x a IH]; intros [|y b] [|z c]; simpl;
    intros H1 H2; try reflexivity; try discriminate.
  destruct x, y, z; try discriminate; try reflexivity; eapply IH; eassumption.
Qed.

Lemma In_insert_row (r m : mask) (l : list mask) :
  In m (insert_row r l) <-> m = r \/ In m l.
Proof.
  induction l as [|s l IH]; simpl.
  - intuition.
  - destruct (row_compare r s) eqn:E; simpl.
    + apply row_compare_eq in E; subst; intuition.
    + intuition.
    + rewrite IH; intuition.
Qed.

Lemma insert_row_ascending (r : mask) (l : list mask) :
  ascending l -> ascending (insert_row r l).
Proof.
  induction 1 as [|s l Hs Hl IH]; simpl.
  - constructor; constructor.
  - destruct (row_compare r s) eqn:E.
    + constructor; assumption.
    + constructor; [|constructor; assumption].
      constructor; [exact E|].
      eapply Forall_impl; [|exact Hs].
      intros m Hm; eapply row_compare_trans; eassumption.
    + constructor; [|exact IH].
      apply Forall_forall; intros m Hm.
      apply In_insert_row in Hm as [->|Hm].
      * unfold row_lt; rewrite row_compare_antisym, E; reflexivity.
      * rewrite Forall_forall in Hs; apply Hs; exact Hm.
Qed.

Lemma ascending_NoDup (l : list mask) : ascending l -> NoDup l.
Proof.
  induction 1 as [|r l Hr Hl IH]; constructor; [|exact IH].
  intros Hin; rewrite Forall_forall in Hr.
  specialize (Hr r Hin); unfold row_lt in Hr.
  rewrite row_compare_refl in Hr; discriminate.
Qed.

Lemma np_unique_ascending (rows : list mask) : ascending (np_unique rows).
Proof.
  induction rows as [|r rows IH]; simpl; [constructor|].
  apply insert_row_ascending; exact IH.
Qed.

Lemma np_unique_NoDup (rows : list mask) : NoDup (np_unique rows).
Proof.
  apply ascending_NoDup, np_unique_ascending.
Qed.

Lemma In_np_unique (rows : list mask) (m : mask) :
  In m (np_unique rows) <-> In m rows.
Proof.
  induction rows as [|r rows IH]; simpl; [reflexivity|].
  rewrite In_insert_row, IH; intuition.
Qed.

(** ** The sweep of half-widths (line 67) *)

(** [np.linspace(3.2, 4.5, 100)]: 100 values, the first 99 on the line
    [i * ((4.5 - 3.2) / 99) + 3.2] and the last one set to 4.5. *)
Lemma n_sigma_sweep :
  np_linspace 3.2 4.5 100
  = map (fun i => float_of_nat i * ((4.5 - 3.2) / 99) + 3.2) (seq 0 99) ++ [4.5].
Proof. vm_compute; reflexivity. Qed.

Lemma n_sigma_sweep_length : length (np_linspace 3.2 4.5 100) = 100%nat.
Proof. vm_compute; reflexivity. Qed.

Lemma roi_list_spec (time : ndarray) (arrival_time signal_width : float) :
  roi_list time arrival_time signal_width
  = Ok (np_unique (map (fun n_sigma => map (strictly_within arrival_time signal_width n_sigma) time)
                       (np_linspace 3.2 4.5 100))).
Proof.
  unfold roi_list.
  rewrite (mapM_pure _ (fun n_sigma =>
             map (strictly_within arrival_time signal_width n_sigma) time))
    by (intros; apply window_mask_spec).
  reflexivity.
Qed.

Lemma roi_left_spec (time : ndarray) (arrival_time signal_width : float) :
  roi_left time arrival_time signal_width
  = Ok (map (left_of_roi arrival_time signal_width) time).
Proof.
  unfold roi_left, np_greater, np_less.
  rewrite np_logical_and_same_length by (rewrite !length_map; reflexivity).
  rewrite zip_with_map; reflexivity.
Qed.

(** ** NaN propagation in binary64 *)

Lemma div_nan_l (x : float) : nan / x = nan.
Proof.
  apply Prim2SF_inj; rewrite div_spec.
  change (Prim2SF nan) with S754_nan.
  destruct (Prim2SF x); reflexivity.
Qed.

Lemma add_nan_r (x : float) : x + nan = nan.
Proof.
  apply Prim2SF_inj; rewrite add_spec.
  change (Prim2SF nan) with S754_nan.
  destruct (Prim2SF x); reflexivity.
Qed.

Lemma np_std_empty : np_std [] = nan.
Proof. reflexivity. Qed.

Lemma np_mean_empty : np_mean [] = nan.
Proof. reflexivity. Qed.

Lemma background_estimate_empty : background_estimate [] = (nan, nan).
Proof. reflexivity. Qed.

Lemma np_linalg_norm_nan (a b : float) : np_linalg_norm [a; b; nan] = nan.
Proof.
  unfold np_linalg_norm, np_sum; simpl.
  change (nan * nan) with nan.
  rewrite add_nan_r; reflexivity.
Qed.

(** ** The three uncertainty contributions (lines 65-75) *)

Section Uncertainty.

Variable np_exp : float -> float.
Variable curve_fit :
  model_function -> ndarray -> ndarray -> ndarray -> ndarray * ndarray ->
  result (ndarray * list ndarray).
Variable simps : ndarray -> ndarray -> result float.
Variable plt : plot_data -> result unit.

Lemma areas_vary_nsigma_Forall2 (time signal : ndarray) (background : float)
      (rois : list mask) (areas : ndarray) :
  areas_vary_nsigma simps time signal background rois = Ok areas ->
  Forall2 (fun roi a =>
             simps (np_subtract (select signal roi) background) (select time roi) = Ok a)
          rois areas.
Proof.
  intros H; apply mapM_Forall2 in H.
  eapply Forall2_impl; [|exact H].
  intros roi a Ha; cbv beta in Ha.
  apply bind_Ok_inv in Ha as (y & Hy & Ha).
  apply bind_Ok_inv in Ha as (x & Hx & Ha).
  apply getitem_Ok_inv in Hy as (_ & ->).
  apply getitem_Ok_inv in Hx as (_ & ->).
  exact Ha.
Qed.

Lemma area_SE_n_sigma_Ok_inv (time signal : ndarray)
      (arrival_time signal_width background v : float) :
  area_SE_n_sigma simps time signal arrival_time signal_width background = Ok v ->
  exists areas,
    Forall2 (fun roi a =>
               simps (np_subtract (select signal roi) background) (select time roi) = Ok a)
            (np_unique (map (fun n_sigma =>
                               map (strictly_within arrival_time signal_width n_sigma) time)
                            (np_linspace 3.2 4.5 100)))
            areas /\
    v = np_std areas.
Proof.
  unfold area_SE_n_sigma; rewrite roi_list_spec; cbn [bind]; intros H.
  apply bind_Ok_inv in H as (areas & Ha & H).
  inversion H; subst.
  exists areas; split; [|reflexivity].
  apply areas_vary_nsigma_Forall2; exact Ha.
Qed.

Lemma run_of_roi (time signal : ndarray) (g1 g2 g3 : option float) (r : run) :
  run_of np_exp curve_fit simps time signal g1 g2 g3 r ->
  length (run_time r) = length (run_signal r) /\
  run_roi r = map (strictly_within (run_arrival_time r) (run_signal_width r) 3.5) (run_time r) /\
  run_signal_of_interest r = select (run_signal r) (run_roi r) /\
  run_signal_background r = select (run_signal r) (invert (run_roi r)).
Proof.
  intros (H1 & _ & _ & H4 & _ & H6 & _ & H8 & _).
  split; [eapply remove_nan_Ok_length; exact H1|].
  unfold region_of_interest_indeces in H4; rewrite window_mask_spec in H4.
  injection H4 as H4.
  apply getitem_Ok_inv in H6 as (_ & H6).
  apply getitem_Ok_inv in H8 as (_ & H8).
  repeat split; [symmetry; exact H4 | exact H6 | exact H8].
Qed.

(** C7: in a call that returns, the window-choice contribution is
    [np.std] of the areas [simps(signal[roi] - background, time[roi])]
    taken over the distinct membership masks of the sweep, where the sweep
    is [np.linspace(3.2, 4.5, 100)] (100 half-widths: 99 on the line from
    3.2 with step (4.5 - 3.2)/99, then 4.5), each mask is the strict window
    test at that half-width, and [np.unique] keeps each mask once. *)
Theorem window_choice_contribution (time signal : ndarray) (plot : bool)
        (arrival_time_guess signal_width_guess background_guess : option float)
        (area area_SE : float) :
  integrate_detector_signal np_exp curve_fit simps plt time signal plot
    arrival_time_guess signal_width_guess background_guess = Ok (area, area_SE) ->
  exists r areas,
    run_of np_exp curve_fit simps time signal
      arrival_time_guess signal_width_guess background_guess r /\
    run_area r = area /\ run_area_SE r = area_SE /\
    let sweep := np_linspace 3.2 4.5 100 in
    let window n_sigma :=
      map (strictly_within (run_arrival_time r) (run_signal_width r) n_sigma) (run_time r) in
    let rois := np_unique (map window sweep) in
    sweep = map (fun i => float_of_nat i * ((4.5 - 3.2) / 99) + 3.2) (seq 0 99) ++ [4.5] /\
    length sweep = 100%nat /\
    NoDup rois /\
    (forall m, In m rois <-> exists n_sigma, In n_sigma sweep /\ m = window n_sigma) /\
    Forall2 (fun roi a =>
               simps (np_subtract (select (run_signal r) roi) (run_background r))
                     (select (run_time r) roi) = Ok a)
            rois areas /\
    run_area_SE_n_sigma r = np_std areas.
Proof.
  intros H.
  apply integrate_Ok_run in H as (r & Hr & Ha & Hse).
  pose proof Hr as (_ & _ & _ & _ & _ & _ & _ & _ & _ & _ & H11 & _).
  apply area_SE_n_sigma_Ok_inv in H11 as (areas & Hareas & Hstd).
  exists r, areas.
  split; [exact Hr|]. split; [exact Ha|]. split; [exact Hse|].
  cbv zeta.
  split; [exact n_sigma_sweep|]. split; [exact n_sigma_sweep_length|].
  split; [apply np_unique_NoDup|].
  split; [|split; [exact Hareas | exact Hstd]].
  intros m; rewrite In_np_unique, in_map_iff; split.
  - intros (n & <- & Hn); exists n; split; [exact Hn | reflexivity].
  - intros (n & Hn & ->); exists n; split; [reflexivity | exact Hn].
Qed.

(** C10: in a call that returns, every area of the sweep subtracts one and
    the same background, the mean of the signal over the complement of the
    3.5-width window (the value line 54 subtracts as well); the complement
    of the sweep's own window plays no part. *)
Theorem sweep_subtracts_fixed_background (time signal : ndarray) (plot : bool)
        (arrival_time_guess signal_width_guess background_guess : option float)
        (area area_SE : float) :
  integrate_detector_signal np_exp curve_fit simps plt time signal plot
    arrival_time_guess signal_width_guess background_guess = Ok (area, area_SE) ->
  exists r areas,
    run_of np_exp curve_fit simps time signal
      arrival_time_guess signal_width_guess background_guess r /\
    run_area r = area /\ run_area_SE r = area_SE /\
    let window n_sigma :=
      map (strictly_within (run_arrival_time r) (run_signal_width r) n_sigma) (run_time r) in
    let background := np_mean (select (run_signal r) (invert (window 3.5))) in
    run_background r = background /\
    simps (np_subtract (select (run_signal r) (window 3.5)) background)
          (select (run_time r) (window 3.5)) = Ok area /\
    Forall2 (fun roi a =>
               simps (np_subtract (select (run_signal r) roi) background)
                     (select (run_time r) roi) = Ok a)
            (np_unique (map window (np_linspace 3.2 4.5 100))) areas /\
    run_area_SE_n_sigma r = np_std areas.
Proof.
  intros H.
  apply integrate_Ok_run in H as (r & Hr & Ha & Hse).
  destruct (run_of_roi Hr) as (_ & Hroi & Hsoi & Hsb).
  pose proof Hr as (_ & _ & _ & _ & H5 & _ & _ & _ & H9 & _ & H11 & _).
  apply area_SE_n_sigma_Ok_inv in H11 as (areas & Hareas & Hstd).
  apply getitem_Ok_inv in H5 as (_ & Htoi).
  assert (Hbg : run_background r
                = np_mean (select (run_signal r)
                             (invert (map (strictly_within (run_arrival_time r)
                                             (run_signal_width r) 3.5) (run_time r)))))
    by (unfold run_background; rewrite Hsb, Hroi; reflexivity).
  exists r, areas; cbv beta zeta.
  rewrite <- Hbg, <- Hroi, <- Hsoi, <- Htoi, <- Ha.
  split; [exact Hr|]. split; [reflexivity|]. split; [exact Hse|].
  split; [reflexivity|]. split; [exact H9|].
  split; [exact Hareas | exact Hstd].
Qed.

(** C8: in a call that returns, the local-noise contribution is [np.std]
    of the signal samples whose time lies strictly between
    [location - 10.5 * width] and [location - 3.5 * width], divided by the
    square root of the number of samples in the region of interest; when
    no sample lies in that slice the contribution is NaN and so is the
    returned standard error. *)
Theorem local_noise_contribution (time signal : ndarray) (plot : bool)
        (arrival_time_guess signal_width_guess background_guess : option float)
        (area area_SE : float) :
  integrate_detector_signal np_exp curve_fit simps plt time signal plot
    arrival_time_guess signal_width_guess background_guess = Ok (area, area_SE) ->
  exists r,
    run_of np_exp curve_fit simps time signal
      arrival_time_guess signal_width_guess background_guess r /\
    run_area r = area /\ run_area_SE r = area_SE /\
    let pairs := combine (run_time r) (run_signal r) in
    let location := run_arrival_time r in
    let width := run_signal_width r in
    let noise := map snd (filter (fun q => left_of_roi location width (fst q)) pairs) in
    let roi_samples := filter (fun q => strictly_within location width 3.5 (fst q)) pairs in
    run_area_SE_noiseROI r
    = np_std noise / np_sqrt (float_of_nat (length roi_samples)) /\
    area_SE = np_linalg_norm [run_area_SE_background r; run_area_SE_n_sigma r;
                              np_std noise / np_sqrt (float_of_nat (length roi_samples))] /\
    (noise = [] -> run_area_SE_noiseROI r = nan /\ area_SE = nan).
Proof.
  intros H.
  apply integrate_Ok_run in H as (r & Hr & Ha & Hse).
  destruct (run_of_roi Hr) as (Hlen & Hroi & Hsoi & _).
  pose proof Hr as (_ & _ & _ & _ & _ & _ & _ & _ & _ & _ & _ & H12).
  unfold area_SE_noiseROI in H12; rewrite roi_left_spec in H12; cbn [bind] in H12.
  apply bind_Ok_inv in H12 as (noise & Hnoise & H12).
  apply getitem_Ok_inv in Hnoise as (_ & Hnoise).
  rewrite select_by_key in Hnoise by exact Hlen.
  rewrite Hsoi, Hroi, select_by_key in H12 by exact Hlen.
  unfold np_size in H12; rewrite length_map in H12.
  inversion H12 as [H12']; subst noise; clear H12.
  exists r; cbv zeta.
  assert (Hnorm : area_SE = np_linalg_norm
            [run_area_SE_background r; run_area_SE_n_sigma r; run_area_SE_noiseROI r])
    by (rewrite <- Hse; reflexivity).
  rewrite <- H12' in Hnorm |- *.
  split; [exact Hr|]. split; [exact Ha|]. split; [exact Hse|].
  split; [reflexivity|]. split; [exact Hnorm|].
  intros Hempty; rewrite Hempty, np_std_empty, div_nan_l in Hnorm |- *.
  split; [reflexivity|].
  rewrite Hnorm; apply np_linalg_norm_nan.
Qed.

End Uncertainty.

Example integrate_example :
  integrate_detector_signal unit_exp fit25 trapezoid_quadrature no_plot
    time25 signal25 false None None None
  = Ok (37.714285714285701, 1.3360913254856459).
Proof. vm_compute; reflexivity. Qed.

Lemma window_choice_contribution_witness :
  integrate_detector_signal unit_exp fit25 trapezoid_quadrature no_plot
    time25 signal25 false None None None
  = Ok (37.714285714285701, 1.3360913254856459) /\
  exists r areas,
    run_of unit_exp fit25 trapezoid_quadrature time25 signal25 None None None r /\
    run_area r = 37.714285714285701 /\ run_area_SE r = 1.3360913254856459 /\
    let sweep := np_linspace 3.2 4.5 100 in
    let window n_sigma :=
      map (strictly_within (run_arrival_time r) (run_signal_width r) n_sigma) (run_time r) in
    let rois := np_unique (map window sweep) in
    sweep = map (fun i => float_of_nat i * ((4.5 - 3.2) / 99) + 3.2) (seq 0 99) ++ [4.5] /\
    length sweep = 100%nat /\
    NoDup rois /\
    (forall m, In m rois <-> exists n_sigma, In n_sigma sweep /\ m = window n_sigma) /\
    Forall2 (fun roi a =>
               trapezoid_quadrature
                 (np_subtract (select (run_signal r) roi) (run_background r))
                 (select (run_time r) roi) = Ok a)
            rois areas /\
    run_area_SE_n_sigma r = np_std areas.
Proof.
  split; [vm_compute; reflexivity|].
  apply (@window_choice_contribution unit_exp fit25 trapezoid_quadrature no_plot
           time25 signal25 false None None None
           37.714285714285701 1.3360913254856459).
  vm_compute; reflexivity.
Defined.

Lemma sweep_subtracts_fixed_background_witness :
  integrate_detector_signal unit_exp fit25 trapezoid_quadrature no_plot
    time25 signal25 false None None None
  = Ok (37.714285714285701, 1.3360913254856459) /\
  exists r areas,
    run_of unit_exp fit25 trapezoid_quadrature time25 signal25 None None None r /\
    run_area r = 37.714285714285701 /\ run_area_SE r = 1.3360913254856459 /\
    let window n_sigma :=
      map (strictly_within (run_arrival_time r) (run_signal_width r) n_sigma) (run_time r) in
    let background := np_mean (select (run_signal r) (invert (window 3.5))) in
    run_background r = background /\
    trapezoid_quadrature (np_subtract (select (run_signal r) (window 3.5)) background)
      (select (run_time r) (window 3.5)) = Ok 37.714285714285701 /\
    Forall2 (fun roi a =>
               trapezoid_quadrature (np_subtract (select (run_signal r) roi) background)
                 (select (run_time r) roi) = Ok a)
            (np_unique (map window (np_linspace 3.2 4.5 100))) areas /\
    run_area_SE_n_sigma r = np_std areas.
Proof.
  split; [vm_compute; reflexivity|].
  apply (@sweep_subtracts_fixed_background unit_exp fit25 trapezoid_quadrature no_plot
           time25 signal25 false None None None
           37.714285714285701 1.3360913254856459).
  vm_compute; reflexivity.
Defined.

(** On [time25] the sweep has three distinct windows; subtracting the one
    background of line 52 and subtracting each window's own complement mean
    give different areas. *)
Example sweep_background_contrast :
  roi_list time25 12 1.5
  = Ok [map (strictly_within 12 1.5 3.2) time25;
        map (strictly_within 12 1.5 3.5) time25;
        map (strictly_within 12 1.5 4.5) time25] /\
  areas_vary_nsigma trapezoid_quadrature time25 signal25
    (np_mean (select signal25 (invert (map (strictly_within 12 1.5 3.5) time25))))
    [map (strictly_within 12 1.5 3.2) time25;
     map (strictly_within 12 1.5 3.5) time25;
     map (strictly_within 12 1.5 4.5) time25]
  = Ok [37.571428571428562; 37.714285714285701; 37.857142857142847] /\
  areas_own_complement trapezoid_quadrature time25 signal25
    [map (strictly_within 12 1.5 3.2) time25;
     map (strictly_within 12 1.5 3.5) time25;
     map (strictly_within 12 1.5 4.5) time25]
  = Ok [37; 37.714285714285701; 37].
Proof. repeat split; vm_compute; reflexivity. Qed.

Lemma local_noise_contribution_witness :
  integrate_detector_signal unit_exp fit25_early trapezoid_quadrature no_plot
    time25 signal25 false None None None
  = Ok (-20.800000000000001, nan) /\
  exists r,
    run_of unit_exp fit25_early trapezoid_quadrature time25 signal25 None None None r /\
    run_area r = -20.800000000000001 /\ run_area_SE r = nan /\
    let pairs := combine (run_time r) (run_signal r) in
    let location := run_arrival_time r in
    let width := run_signal_width r in
    let noise := map snd (filter (fun q => left_of_roi location width (fst q)) pairs) in
    let roi_samples := filter (fun q => strictly_within location width 3.5 (fst q)) pairs in
    run_area_SE_noiseROI r
    = np_std noise / np_sqrt (float_of_nat (length roi_samples)) /\
    nan = np_linalg_norm [run_area_SE_background r; run_area_SE_n_sigma r;
                          np_std noise / np_sqrt (float_of_nat (length roi_samples))] /\
    (noise = [] -> run_area_SE_noiseROI r = nan /\ nan = nan).
Proof.
  split; [vm_compute; reflexivity|].
  apply (@local_noise_contribution unit_exp fit25_early trapezoid_quadrature no_plot
           time25 signal25 false None None None (-20.800000000000001) nan).
  vm_compute; reflexivity.
Defined.

(** With the peak at the start of the trace no sample lies in the left slice
    and the returned standard error is NaN; with the peak in the middle the
    slice holds samples and it is a number. *)
Example left_slice_examples :
  select signal25 (map (left_of_roi 4 1.5) time25) = [] /\
  integrate_detector_signal unit_exp fit25_early trapezoid_quadrature no_plot
    time25 signal25 false None None None
  = Ok (-20.800000000000001, nan) /\
  select signal25 (map (left_of_roi 12 1.5) time25) = [1; 2; 1; 2; 1; 2; 1] /\
  area_SE_noiseROI time25 signal25 12 1.5
    (select signal25 (map (strictly_within 12 1.5 3.5) time25))
  = Ok (np_std [1; 2; 1; 2; 1; 2; 1] / np_sqrt 11).
Proof. repeat split; vm_compute; reflexivity. Qed.

(** ** An empty background region (line 52) *)

Lemma mapM_total {A B : Type} (f : A -> result B) (l : list A) :
  (forall a, In a l -> exists b, f a = Ok b) -> exists bs, mapM f l = Ok bs.
Proof.
  induction l as [|a l IH]; simpl; intros H; [eexists; reflexivity|].
  destruct (H a (or_introl eq_refl)) as (b & Hb).
  destruct IH as (bs & Hbs); [intros; apply H; right; assumption|].
  exists (b :: bs); rewrite Hb, Hbs; reflexivity.
Qed.

Lemma empty_complement_all_true {A : Type} (a : list A) (m : mask) :
  length a = length m -> select a (invert m) = [] -> m = repeat true (length m).
Proof.
  revert a; induction m as [|b m IH]; intros [|x a]; simpl; intros Hlen H;
    try reflexivity; try discriminate.
  destruct b; simpl in H; [|discriminate].
  f_equal; apply (IH a); [lia | exact H].
Qed.

Lemma select_all_true {A : Type} (l : list A) :
  select l (repeat true (length l)) = l.
Proof.
  induction l as [|x l IH]; simpl; [reflexivity | rewrite IH; reflexivity].
Qed.

Section EmptyBackground.

Variable simps : ndarray -> ndarray -> result float.

Hypothesis simps_returns : forall y x, exists v, simps y x = Ok v.

Lemma area_SE_n_sigma_returns (time signal : ndarray)
      (arrival_time signal_width background : float) :
  length time = length signal ->
  exists v, area_SE_n_sigma simps time signal arrival_time signal_width background = Ok v.
Proof.
  intros Hlen; unfold area_SE_n_sigma; rewrite roi_list_spec; cbn [bind].
  destruct (@mapM_total _ _
              (fun roi => (y <- getitem signal roi ;; x <- getitem time roi ;;
                           simps (np_subtract y background) x)%py)
              (np_unique (map (fun n_sigma =>
                                 map (strictly_within arrival_time signal_width n_sigma) time)
                              (np_linspace 3.2 4.5 100)))) as (areas & Ha).
  - intros roi Hin; apply In_np_unique, in_map_iff in Hin as (n & <- & _).
    rewrite !getitem_same_length by (rewrite length_map; lia); cbn [bind].
    apply simps_returns.
  - unfold areas_vary_nsigma; rewrite Ha; eexists; reflexivity.
Qed.

Lemma area_SE_noiseROI_returns (time signal : ndarray)
      (arrival_time signal_width : float) (signal_of_interest : ndarray) :
  length time = length signal ->
  exists v, area_SE_noiseROI time signal arrival_time signal_width signal_of_interest = Ok v.
Proof.
  intros Hlen; unfold area_SE_noiseROI; rewrite roi_left_spec; cbn [bind].
  rewrite getitem_same_length by (rewrite length_map; lia); cbn [bind].
  eexists; reflexivity.
Qed.

End EmptyBackground.

(** A sample inside the 3.5-width window is not in the slice to its left. *)

Lemma SFcompare_antisym (x y : spec_float) :
  SFcompare y x = option_map CompOpp (SFcompare x y).
Proof.
  destruct x as [s|s| |s m e], y as [s'|s'| |s' m' e']; simpl;
    try reflexivity; try (destruct s; reflexivity);
    try (destruct s'; reflexivity); try (destruct s, s'; reflexivity).
  destruct s, s'; try reflexivity; f_equal;
    rewrite (Z.compare_antisym e' e); destruct (Z.compare e' e); simpl;
    try reflexivity;
    rewrite (Pos.compare_cont_antisym m m' Eq); reflexivity.
Qed.

Lemma ltb_asym (a b : float) : (a <? b) = true -> (b <? a) = false.
Proof.
  rewrite !ltb_spec; unfold SFltb.
  rewrite (SFcompare_antisym (Prim2SF a) (Prim2SF b)).
  destruct (SFcompare (Prim2SF a) (Prim2SF b)) as [[| |]|]; simpl;
    intros H; try discriminate; reflexivity.
Qed.

Lemma strictly_within_not_left (location width t : float) :
  strictly_within location width 3.5 t = true -> left_of_roi location width t = false.
Proof.
  unfold strictly_within, left_of_roi; intros H.
  apply andb_prop in H as [H _].
  rewrite (@ltb_asym _ _ H); reflexivity.
Qed.

Lemma map_repeat_Forall {A B : Type} (f : A -> B) (b : B) (l : list A) (n : nat) :
  map f l = repeat b n -> Forall (fun a => f a = b) l.
Proof.
  revert n; induction l as [|a l IH]; intros [|n]; simpl; intros H;
    try constructor; try discriminate.
  - injection H; auto.
  - injection H as _ H; eapply IH; exact H.
Qed.

Lemma map_Forall_repeat {A B : Type} (f : A -> B) (b : B) (l : list A) :
  Forall (fun a => f a = b) l -> map f l = repeat b (length l).
Proof.
  induction 1 as [|a l Ha _ IH]; simpl; [reflexivity|].
  rewrite Ha, IH; reflexivity.
Qed.

Lemma select_none {A : Type} (l : list A) (n : nat) : select l (repeat false n) = [].
Proof.
  revert n; induction l as [|a l IH]; intros [|n]; simpl; try reflexivity.
  apply IH.
Qed.

Section EmptyBackgroundRun.

Variable np_exp : float -> float.
Variable curve_fit :
  model_function -> ndarray -> ndarray -> ndarray -> ndarray * ndarray ->
  result (ndarray * list ndarray).
Variable simps : ndarray -> ndarray -> result float.
Variable plt : plot_data -> result unit.

(** C2, as the code has it: when, after cleaning and fitting, no sample
    lies outside the 3.5-width window, nothing is raised at line 52: the
    background mean and its standard error are both NaN and the region of
    interest is the whole cleaned trace.  The call, with or without
    plotting, continues with NaN as background: it is the quadrature of
    [signal - NaN] over the trace, the quadrature of the constant NaN, the
    sweep with background NaN, and the plot when asked for; the left slice
    is empty, so the local-noise term and the norm of line 75 are NaN.
    Hence a call that returns gives that quadrature as area and NaN as
    standard error, and the call does return whenever the quadrature (and,
    with [plot=True], the plotting code) returns. *)
Theorem empty_background_gives_nan (time signal t s fit_params fit_params_SE : ndarray)
        (plot : bool)
        (arrival_time_guess signal_width_guess background_guess : option float)
        (signal_width arrival_time : float) :
  remove_nan time signal = Ok (t, s) ->
  _gaussian_fit np_exp curve_fit t s arrival_time_guess signal_width_guess background_guess
  = Ok (fit_params, fit_params_SE) ->
  unpack2 (slice 1 3 fit_params) = Ok (signal_width, arrival_time) ->
  select s (invert (map (strictly_within arrival_time signal_width 3.5) t)) = [] ->
  background_estimate
    (select s (invert (map (strictly_within arrival_time signal_width 3.5) t)))
  = (nan, nan) /\
  integrate_detector_signal np_exp curve_fit simps plt time signal plot
    arrival_time_guess signal_width_guess background_guess
  = (area <- simps (np_subtract s nan) t ;;
     area_SE_background <- simps (np_full (np_size t) nan) t ;;
     area_SE_n_sigma <- area_SE_n_sigma simps t s arrival_time signal_width nan ;;
     _ <- (if plot
           then plt {| plot_time := t;
                       plot_time_background := [];
                       plot_signal_background := [];
                       plot_time_of_interest := t;
                       plot_signal_of_interest := s;
                       plot_background := nan;
                       plot_fit_params := fit_params;
                       plot_area := area;
                       plot_area_SE := nan |}
           else Ok tt) ;;
     Ok (area, nan))%py /\
  (forall area area_SE,
     integrate_detector_signal np_exp curve_fit simps plt time signal plot
       arrival_time_guess signal_width_guess background_guess = Ok (area, area_SE) ->
     simps (np_subtract s nan) t = Ok area /\ area_SE = nan) /\
  ((forall y x, exists v, simps y x = Ok v) ->
   (plot = true -> forall d, exists u, plt d = Ok u) ->
   exists area,
     integrate_detector_signal np_exp curve_fit simps plt time signal plot
       arrival_time_guess signal_width_guess background_guess = Ok (area, nan)).
Proof.
  intros H1 H2 H3 Hempty.
  pose proof (remove_nan_Ok_length _ _ H1) as Hlen.
  set (m := map (strictly_within arrival_time signal_width 3.5) t) in *.
  assert (Lm : length m = length t) by (unfold m; apply length_map).
  assert (Hall : m = repeat true (length m))
    by (apply (@empty_complement_all_true _ s); [lia | exact Hempty]).
  assert (Hs : select s m = s) by (rewrite Hall, Lm, Hlen; apply select_all_true).
  assert (Ht : select t m = t) by (rewrite Hall, Lm; apply select_all_true).
  assert (Htb : select t (invert m) = []).
  { rewrite Hall; unfold invert; rewrite map_repeat; apply select_none. }
  assert (Hleft : map (left_of_roi arrival_time signal_width) t
                  = repeat false (length t)).
  { apply map_Forall_repeat.
    eapply Forall_impl; [|apply (@map_repeat_Forall _ _ _ _ _ _ Hall)].
    intros x Hx; apply strictly_within_not_left; exact Hx. }
  assert (Hnoise : area_SE_noiseROI t s arrival_time signal_width s = Ok nan).
  { unfold area_SE_noiseROI; rewrite roi_left_spec; cbn [bind].
    rewrite Hleft, getitem_same_length by (rewrite repeat_length; lia).
    cbn [bind]; rewrite select_none, np_std_empty, div_nan_l; reflexivity. }
  assert (Hrun :
    integrate_detector_signal np_exp curve_fit simps plt time signal plot
      arrival_time_guess signal_width_guess background_guess
    = (area <- simps (np_subtract s nan) t ;;
       area_SE_background <- simps (np_full (np_size t) nan) t ;;
       area_SE_n_sigma <- area_SE_n_sigma simps t s arrival_time signal_width nan ;;
       _ <- (if plot
             then plt {| plot_time := t;
                         plot_time_background := [];
                         plot_signal_background := [];
                         plot_time_of_interest := t;
                         plot_signal_of_interest := s;
                         plot_background := nan;
                         plot_fit_params := fit_params;
                         plot_area := area;
                         plot_area_SE := nan |}
             else Ok tt) ;;
       Ok (area, nan))%py).
  { unfold integrate_detector_signal.
    rewrite H1; cbn [bind]. rewrite H2; cbn [bind]. rewrite H3; cbn [bind].
    unfold region_of_interest_indeces; rewrite window_mask_spec; cbn [bind].
    fold m.
    rewrite (getitem_same_length t m) by lia; cbn [bind].
    rewrite (getitem_same_length s m) by lia; cbn [bind].
    rewrite (getitem_same_length t (invert m))
      by (unfold invert; rewrite length_map; lia); cbn [bind].
    rewrite (getitem_same_length s (invert m))
      by (unfold invert; rewrite length_map; lia); cbn [bind].
    rewrite Hempty, Htb, Hs, Ht, background_estimate_empty, Hnoise.
    apply bind_ext; intros area.
    apply bind_ext; intros c1.
    apply bind_ext; intros c2.
    cbn [bind]; rewrite np_linalg_norm_nan; reflexivity. }
  split; [rewrite Hempty; apply background_estimate_empty|].
  split; [exact Hrun|].
  split.
  - intros area area_SE H; rewrite Hrun in H.
    apply bind_Ok_inv in H as (a & Ha & H).
    apply bind_Ok_inv in H as (c1 & _ & H).
    apply bind_Ok_inv in H as (c2 & _ & H).
    apply bind_Ok_inv in H as (u & _ & H).
    inversion H; subst; auto.
  - intros Hsimps Hplt; rewrite Hrun.
    destruct (Hsimps (np_subtract s nan) t) as (area & ->); cbn [bind].
    destruct (Hsimps (np_full (np_size t) nan) t) as (c1 & ->); cbn [bind].
    destruct (@area_SE_n_sigma_returns simps Hsimps t s arrival_time signal_width nan Hlen)
      as (c2 & ->); cbn [bind].
    exists area; destruct plot; [|reflexivity].
    match goal with
    | |- bind (plt ?d) _ = _ => destruct (Hplt eq_refl d) as (u & ->)
    end; reflexivity.
Qed.

End EmptyBackgroundRun.

Lemma empty_background_gives_nan_witness :
  remove_nan time11 signal11 = Ok (time11, signal11) /\
  _gaussian_fit unit_exp fit11_wide time11 signal11 None None None
  = Ok ([9.5; 2.2; 5; 0.5], [4; 9; 16; 25]) /\
  unpack2 (slice 1 3 [9.5; 2.2; 5; 0.5]) = Ok (2.2, 5) /\
  select signal11 (invert (map (strictly_within 5 2.2 3.5) time11)) = [] /\
  background_estimate (select signal11 (invert (map (strictly_within 5 2.2 3.5) time11)))
  = (nan, nan) /\
  integrate_detector_signal unit_exp fit11_wide trapezoid_quadrature no_plot
    time11 signal11 true None None None
  = (area <- trapezoid_quadrature (np_subtract signal11 nan) time11 ;;
     area_SE_background <- trapezoid_quadrature (np_full (np_size time11) nan) time11 ;;
     area_SE_n_sigma <- area_SE_n_sigma trapezoid_quadrature time11 signal11 5 2.2 nan ;;
     _ <- (if true
           then no_plot {| plot_time := time11;
                           plot_time_background := [];
                           plot_signal_background := [];
                           plot_time_of_interest := time11;
                           plot_signal_of_interest := signal11;
                           plot_background := nan;
                           plot_fit_params := [9.5; 2.2; 5; 0.5];
                           plot_area := area;
                           plot_area_SE := nan |}
           else Ok tt) ;;
     Ok (area, nan))%py /\
  (forall area area_SE,
     integrate_detector_signal unit_exp fit11_wide trapezoid_quadrature no_plot
       time11 signal11 true None None None = Ok (area, area_SE) ->
     trapezoid_quadrature (np_subtract signal11 nan) time11 = Ok area /\ area_SE = nan) /\
  ((forall y x, exists v, trapezoid_quadrature y x = Ok v) ->
   (true = true -> forall d, exists u, no_plot d = Ok u) ->
   exists area,
     integrate_detector_signal unit_exp fit11_wide trapezoid_quadrature no_plot
       time11 signal11 true None None None = Ok (area, nan)).
Proof.
  split; [reflexivity|]. split; [reflexivity|]. split; [reflexivity|].
  split; [reflexivity|].
  apply (@empty_background_gives_nan unit_exp fit11_wide trapezoid_quadrature no_plot
           time11 signal11 time11 signal11 [9.5; 2.2; 5; 0.5] [4; 9; 16; 25]
           true None None None 2.2 5); reflexivity.
Defined.

(** A trace whose fitted window covers every sample: the background region
    is empty, no exception is raised, and the call returns the pair
    (NaN, NaN). *)
Lemma empty_background_returns_nan :
  _gaussian_fit unit_exp fit11_wide time11 signal11 None None None
  = Ok ([9.5; 2.2; 5; 0.5], [4; 9; 16; 25]) /\
  region_of_interest_indeces time11 5 2.2 = Ok (repeat true 11) /\
  getitem signal11 (invert (repeat true 11)) = Ok [] /\
  background_estimate [] = (nan, nan) /\
  integrate_detector_signal unit_exp fit11_wide trapezoid_quadrature no_plot
    time11 signal11 false None None None
  = Ok (nan, nan).
Proof. repeat split; vm_compute; reflexivity. Qed.

(** * Further properties of the pipeline *)

(** ** More on binary64 *)

Lemma is_nan_eq (x : float) : is_nan x = true -> x = nan.
Proof.
  unfold is_nan; rewrite eqb_spec; intros H.
  apply Prim2SF_inj; change (Prim2SF nan) with S754_nan.
  destruct (Prim2SF x) as [s|s| |s m e]; try reflexivity; exfalso.
  - destruct s; discriminate.
  - destruct s; discriminate.
  - unfold SFeqb, SFcompare in H.
    rewrite Z.compare_refl in H.
    change (Pos.compare_cont Eq m m) with (Pos.compare m m) in H.
    rewrite Pos.compare_refl in H.
    destruct s; discriminate.
Qed.

Lemma mul_nan_l (x : float) : nan * x = nan.
Proof.
  apply Prim2SF_inj; rewrite mul_spec.
  change (Prim2SF nan) with S754_nan.
  destruct (Prim2SF x); reflexivity.
Qed.

Lemma add_nan_l (x : float) : nan + x = nan.
Proof.
  apply Prim2SF_inj; rewrite add_spec.
  change (Prim2SF nan) with S754_nan.
  destruct (Prim2SF x); reflexivity.
Qed.

Lemma binary_round_aux_sign (sx : bool) (mx ex : Z) (lx : location) :
  let r := binary_round_aux prec emax sx mx ex lx in
  r = S754_nan \/ r = S754_zero sx \/ r = S754_infinity sx \/
  exists m e, r = S754_finite sx m e.
Proof.
  unfold binary_round_aux.
  destruct (shr_fexp prec emax mx ex lx) as [mrs' e'].
  destruct (shr_fexp prec emax _ e' loc_Exact) as [mrs'' e''].
  destruct (shr_m mrs'') as [|m|m]; cbv zeta.
  - right; left; reflexivity.
  - destruct (Z.leb e'' (emax - prec)).
    + right; right; right; eauto.
    + right; right; left; reflexivity.
  - left; reflexivity.
Qed.

Lemma sqrt_not_negative (x : float) : (PrimFloat.sqrt x <? 0) = false.
Proof.
  rewrite ltb_spec, sqrt_spec.
  change (Prim2SF 0) with (S754_zero false).
  unfold SF64sqrt, SFsqrt.
  destruct (Prim2SF x) as [s|s| |s m e]; try reflexivity.
  - destruct s; reflexivity.
  - destruct s; [reflexivity|].
    destruct (SFsqrt_core_binary prec emax (Z.pos m) e) as [[mz ez] lz].
    destruct (binary_round_aux_sign false mz ez lz) as [H|[H|[H|(m' & e' & H)]]];
      cbv zeta in H; rewrite H; reflexivity.
Qed.

Lemma mul_opp_opp (x y : float) : (- x) * (- y) = x * y.
Proof.
  apply Prim2SF_inj; rewrite !mul_spec, !opp_spec.
  destruct (Prim2SF x) as [s|s| |s m e], (Prim2SF y) as [s'|s'| |s' m' e']; simpl;
    try reflexivity; try (destruct s, s'; reflexivity).
Qed.

Lemma np_linalg_norm_nan_any (a b c : float) :
  is_nan a = true \/ is_nan b = true \/ is_nan c = true ->
  np_linalg_norm [a; b; c] = nan.
Proof.
  unfold np_linalg_norm, np_sum; simpl.
  intros [H|[H|H]]; apply is_nan_eq in H; subst.
  - rewrite mul_nan_l, add_nan_r, !add_nan_l; reflexivity.
  - rewrite mul_nan_l, add_nan_r, add_nan_l; reflexivity.
  - rewrite mul_nan_l, add_nan_r; reflexivity.
Qed.

(** ** More on the result monad *)

Lemma bind_Raise_inv {A B : Type} (m : result A) (k : A -> result B) (e : exception) :
  bind m k = Raise e -> m = Raise e \/ exists a, m = Ok a /\ k a = Raise e.
Proof.
  destruct m as [a|e']; simpl; intros H; [right; eauto | left; congruence].
Qed.

Lemma mapM_Raise_inv {A B : Type} (f : A -> result B) (l : list A) (e : exception) :
  mapM f l = Raise e -> exists a, In a l /\ f a = Raise e.
Proof.
  induction l as [|a l IH]; simpl; intros H; [discriminate|].
  apply bind_Raise_inv in H as [H|(b & Hb & H)].
  - exists a; auto.
  - apply bind_Raise_inv in H as [H|(bs & _ & H)]; [|discriminate].
    destruct (IH H) as (a' & Hin & Ha'); exists a'; auto.
Qed.

Lemma bind_related {A B C : Type} (P : result B -> result C -> Prop)
      (m : result A) (k : A -> result B) (k' : A -> result C) :
  (forall e, P (Raise e) (Raise e)) ->
  (forall a, P (k a) (k' a)) ->
  P (bind m k) (bind m k').
Proof.
  intros He Hk; destruct m; simpl; auto.
Qed.

(** ** Preprocessing: what a returned trace looks like *)

Lemma remove_nan_equal_length (time signal : ndarray) :
  length time = length signal ->
  remove_nan time signal
  = Ok (map fst (filter defined_pair (combine time signal)),
        map snd (filter defined_pair (combine time signal))).
Proof.
  intros H.
  assert (Hlen : length (combine time signal) = length time)
    by (rewrite length_combine; lia).
  unfold remove_nan; rewrite (nan_mask_defined time signal H); cbn [bind].
  rewrite !getitem_same_length by (rewrite length_map; lia); cbn [bind].
  rewrite <- (map_fst_combine_eq time signal H) at 1.
  rewrite <- (map_snd_combine_eq time signal H) at 3.
  rewrite !select_map, !select_map_filter; reflexivity.
Qed.

Lemma remove_nan_Ok_inv (time signal t s : ndarray) :
  remove_nan time signal = Ok (t, s) ->
  (length time = length signal /\
   t = map fst (filter defined_pair (combine time signal)) /\
   s = map snd (filter defined_pair (combine time signal))) \/
  ((length time + length signal)%nat = 1%nat /\ t = [] /\ s = []).
Proof.
  intros H.
  destruct (Nat.eq_dec (length time) (length signal)) as [E|E].
  - left; rewrite (remove_nan_equal_length _ _ E) in H; inversion H; auto.
  - destruct (Nat.eq_dec (length time + length signal) 1) as [E1|E1].
    + right; rewrite (remove_nan_empty_and_single _ _ E1) in H; inversion H; auto.
    + destruct (remove_nan_length_mismatch _ _ E E1) as (e & _ & He).
      rewrite He in H; discriminate.
Qed.

Lemma remove_nan_Raise_inv (time signal : ndarray) (e : exception) :
  remove_nan time signal = Raise e ->
  length time <> length signal /\ InputShapeError e.
Proof.
  intros H.
  destruct (Nat.eq_dec (length time) (length signal)) as [E|E].
  - rewrite (remove_nan_equal_length _ _ E) in H; discriminate.
  - split; [exact E|].
    destruct (Nat.eq_dec (length time + length signal) 1) as [E1|E1].
    + rewrite (remove_nan_empty_and_single _ _ E1) in H; discriminate.
    + destruct (remove_nan_length_mismatch _ _ E E1) as (e' & He' & Hr).
      rewrite Hr in H; inversion H; subst; exact He'.
Qed.

Lemma filter_all {A : Type} (f : A -> bool) (l : list A) :
  Forall (fun a => f a = true) l -> filter f l = l.
Proof.
  induction 1 as [|a l Ha _ IH]; simpl; [reflexivity|].
  rewrite Ha, IH; reflexivity.
Qed.

Lemma filter_none {A : Type} (f : A -> bool) (l : list A) :
  Forall (fun a => f a = false) l -> filter f l = [].
Proof.
  induction 1 as [|a l Ha _ IH]; simpl; [reflexivity|].
  rewrite Ha, IH; reflexivity.
Qed.

Lemma filter_Forall {A : Type} (f : A -> bool) (l : list A) :
  Forall (fun a => f a = true) (filter f l).
Proof.
  apply Forall_forall; intros a Ha; apply filter_In in Ha; tauto.
Qed.

Lemma remove_nan_fixed (time signal t s : ndarray) :
  remove_nan time signal = Ok (t, s) -> remove_nan t s = Ok (t, s).
Proof.
  intros H; apply remove_nan_Ok_inv in H as [(_ & -> & ->)|(_ & -> & ->)];
    [|reflexivity].
  rewrite remove_nan_equal_length by (rewrite !length_map; reflexivity).
  rewrite combine_map_fst_snd, filter_all by apply filter_Forall.
  reflexivity.
Qed.

(** X1: a trace returned by line 43 holds no NaN in either array, its two
    arrays have the same length, at most that of the input, and cleaning it
    a second time returns it unchanged. *)
Theorem cleaned_trace_has_no_nan (time signal t s : ndarray) :
  remove_nan time signal = Ok (t, s) ->
  Forall (fun x => is_nan x = false) t /\
  Forall (fun x => is_nan x = false) s /\
  length t = length s /\
  length t <= length time /\
  remove_nan t s = Ok (t, s).
Proof.
  intros H; pose proof (remove_nan_fixed _ _ H) as Hfix.
  apply remove_nan_Ok_inv in H as [(Hlen & -> & ->)|(_ & -> & ->)];
    [|split; [constructor | split; [constructor | split; [reflexivity |
        split; [simpl; lia | exact Hfix]]]]].
  pose proof (filter_Forall defined_pair (combine time signal)) as Hall.
  repeat split.
  - apply Forall_map; eapply Forall_impl; [|exact Hall].
    intros [a b]; unfold defined_pair; simpl; intros Hp.
    apply andb_prop in Hp as [Hp _]; apply negb_true_iff; exact Hp.
  - apply Forall_map; eapply Forall_impl; [|exact Hall].
    intros [a b]; unfold defined_pair; simpl; intros Hp.
    apply andb_prop in Hp as [_ Hp]; apply negb_true_iff; exact Hp.
  - rewrite !length_map; reflexivity.
  - rewrite length_map.
    etransitivity; [apply filter_length_le|].
    rewrite length_combine; lia.
  - exact Hfix.
Qed.

Lemma cleaned_trace_has_no_nan_witness :
  remove_nan [1; nan; 3; 3; 2] [4; 5; nan; 4; 4] = Ok ([1; 3; 2], [4; 4; 4]) /\
  Forall (fun x => is_nan x = false) [1; 3; 2] /\
  Forall (fun x => is_nan x = false) [4; 4; 4] /\
  length [1; 3; 2] = length [4; 4; 4] /\
  length [1; 3; 2] <= length [1; nan; 3; 3; 2] /\
  remove_nan [1; 3; 2] [4; 4; 4] = Ok ([1; 3; 2], [4; 4; 4]).
Proof.
  split; [reflexivity|].
  apply (@cleaned_trace_has_no_nan [1; nan; 3; 3; 2] [4; 5; nan; 4; 4]); reflexivity.
Defined.

Lemma _gaussian_fit_empty_trace (np_exp : float -> float)
      (curve_fit : model_function -> ndarray -> ndarray -> ndarray -> ndarray * ndarray ->
                   result (ndarray * list ndarray))
      (time signal : ndarray) (g1 g2 g3 : option float) :
  time = [] \/ signal = [] ->
  _gaussian_fit np_exp curve_fit time signal g1 g2 g3 = Raise ValueError_zero_size.
Proof.
  intros [-> | ->].
  - destruct g1, g2, g3, signal; reflexivity.
  - destruct g1, g2, g3, time; reflexivity.
Qed.

Section WholePipeline.

Variable np_exp : float -> float.
Variable curve_fit :
  model_function -> ndarray -> ndarray -> ndarray -> ndarray * ndarray ->
  result (ndarray * list ndarray).
Variable simps : ndarray -> ndarray -> result float.
Variable plt : plot_data -> result unit.

(** X2: samples with a NaN coordinate have no influence: whenever line 43
    returns, the call on the raw arrays has the same outcome as the call on
    the cleaned arrays, exceptions included, for every [plot] and guesses. *)
Theorem nan_samples_do_not_matter (time signal t s : ndarray) (plot : bool)
        (arrival_time_guess signal_width_guess background_guess : option float) :
  remove_nan time signal = Ok (t, s) ->
  integrate_detector_signal np_exp curve_fit simps plt time signal plot
    arrival_time_guess signal_width_guess background_guess
  = integrate_detector_signal np_exp curve_fit simps plt t s plot
      arrival_time_guess signal_width_guess background_guess.
Proof.
  intros H; unfold integrate_detector_signal.
  rewrite (remove_nan_fixed _ _ H), H; reflexivity.
Qed.

(** X3: when the inputs have the same length and every sample has a NaN
    coordinate (in particular when they are empty), the cleaned trace is empty
    and the call raises the zero-size ValueError of [np.max] / [np.min] in the
    fitter, whatever the guesses; [curve_fit] is not called. *)
Theorem all_nan_input_raises (time signal : ndarray) (plot : bool)
        (arrival_time_guess signal_width_guess background_guess : option float) :
  length time = length signal ->
  Forall (fun p => defined_pair p = false) (combine time signal) ->
  remove_nan time signal = Ok ([], []) /\
  integrate_detector_signal np_exp curve_fit simps plt time signal plot
    arrival_time_guess signal_width_guess background_guess
  = Raise ValueError_zero_size.
Proof.
  intros Hlen Hall.
  assert (H : remove_nan time signal = Ok ([], []))
    by (rewrite remove_nan_equal_length, filter_none by assumption; reflexivity).
  split; [exact H|].
  unfold integrate_detector_signal; rewrite H; cbn [bind].
  rewrite _gaussian_fit_empty_trace by (left; reflexivity); reflexivity.
Qed.

(** X4: plotting does not change what is returned: a call with [plot=True]
    that returns gives the pair that the same call with [plot=False] gives. *)
Theorem plot_does_not_change_result (time signal : ndarray)
        (arrival_time_guess signal_width_guess background_guess : option float)
        (area area_SE : float) :
  integrate_detector_signal np_exp curve_fit simps plt time signal true
    arrival_time_guess signal_width_guess background_guess = Ok (area, area_SE) ->
  integrate_detector_signal np_exp curve_fit simps plt time signal false
    arrival_time_guess signal_width_guess background_guess = Ok (area, area_SE).
Proof.
  intros H; apply integrate_Ok_run in H as (r & Hr & <- & <-).
  apply run_integrate_Ok; exact Hr.
Qed.

(** X5: the returned standard error is never negative: the comparison
    [area_SE < 0] is false for every call that returns (it is a square root,
    so a number that is not below zero, or NaN). *)
Theorem area_SE_not_negative (time signal : ndarray) (plot : bool)
        (arrival_time_guess signal_width_guess background_guess : option float)
        (area area_SE : float) :
  integrate_detector_signal np_exp curve_fit simps plt time signal plot
    arrival_time_guess signal_width_guess background_guess = Ok (area, area_SE) ->
  (area_SE <? 0) = false.
Proof.
  intros H; apply integrate_Ok_run in H as (r & _ & _ & <-).
  unfold run_area_SE, np_linalg_norm, np_sqrt; apply sqrt_not_negative.
Qed.

(** X6: line 75 hides no NaN: in a call that returns, if the background
    term, the window-choice term or the local-noise term is NaN, then the
    returned standard error is NaN. *)
Theorem area_SE_nan_propagation (time signal : ndarray) (plot : bool)
        (arrival_time_guess signal_width_guess background_guess : option float)
        (area area_SE : float) :
  integrate_detector_signal np_exp curve_fit simps plt time signal plot
    arrival_time_guess signal_width_guess background_guess = Ok (area, area_SE) ->
  exists r,
    run_of np_exp curve_fit simps time signal
      arrival_time_guess signal_width_guess background_guess r /\
    area_SE = np_linalg_norm [run_area_SE_background r; run_area_SE_n_sigma r;
                              run_area_SE_noiseROI r] /\
    (is_nan (run_area_SE_background r) = true \/
     is_nan (run_area_SE_n_sigma r) = true \/
     is_nan (run_area_SE_noiseROI r) = true ->
     area_SE = nan).
Proof.
  intros H; apply integrate_Ok_run in H as (r & Hr & _ & <-).
  exists r; split; [exact Hr|]; split; [reflexivity|].
  apply np_linalg_norm_nan_any.
Qed.

(** X7: in a call that returns, the background term of line 65 is the
    quadrature, over the times of the region of interest, of a constant
    array with one entry per sample of the region, each equal to
    [np.std(b) / np.sqrt(len(b))] where [b] holds the signal of the samples
    outside the 3.5-width window. *)
Theorem background_contribution (time signal : ndarray) (plot : bool)
        (arrival_time_guess signal_width_guess background_guess : option float)
        (area area_SE : float) :
  integrate_detector_signal np_exp curve_fit simps plt time signal plot
    arrival_time_guess signal_width_guess background_guess = Ok (area, area_SE) ->
  exists r,
    run_of np_exp curve_fit simps time signal
      arrival_time_guess signal_width_guess background_guess r /\
    run_area r = area /\ run_area_SE r = area_SE /\
    let pairs := combine (run_time r) (run_signal r) in
    let inside := strictly_within (run_arrival_time r) (run_signal_width r) 3.5 in
    let roi_times := map fst (filter (fun q => inside (fst q)) pairs) in
    let b := map snd (filter (fun q => negb (inside (fst q))) pairs) in
    let background_SE := np_std b / np_sqrt (float_of_nat (length b)) in
    run_background_SE r = background_SE /\
    simps (repeat background_SE (length roi_times)) roi_times
    = Ok (run_area_SE_background r).
Proof.
  intros H; apply integrate_Ok_run in H as (r & Hr & Ha & Hse).
  destruct (run_of_roi Hr) as (Hlen & Hroi & _ & Hsb).
  pose proof Hr as (_ & _ & _ & _ & H5 & _ & _ & _ & _ & H10 & _).
  apply getitem_Ok_inv in H5 as (_ & Htoi).
  rewrite Hroi, select_map_filter in Htoi.
  rewrite Hroi, invert_map in Hsb.
  rewrite (select_by_key (fun t => negb (strictly_within (run_arrival_time r)
                                          (run_signal_width r) 3.5 t))) in Hsb
    by exact Hlen.
  rewrite <- (filter_fst_combine _ _ _ Hlen) in Htoi.
  exists r; cbv zeta.
  split; [exact Hr|]. split; [exact Ha|]. split; [exact Hse|].
  assert (Hbse : run_background_SE r
                 = np_std (run_signal_background r)
                   / np_sqrt (float_of_nat (length (run_signal_background r))))
    by reflexivity.
  rewrite <- Hsb, <- Htoi, <- Hbse.
  split; [reflexivity | exact H10].
Qed.

End WholePipeline.

Lemma nan_samples_do_not_matter_witness :
  remove_nan [0; 1; nan; 2; 3] [5; nan; 6; 8; 5] = Ok ([0; 2; 3], [5; 8; 5]) /\
  integrate_detector_signal unit_exp echo_fit trapezoid_quadrature no_plot
    [0; 1; nan; 2; 3] [5; nan; 6; 8; 5] true None None None
  = integrate_detector_signal unit_exp echo_fit trapezoid_quadrature no_plot
      [0; 2; 3] [5; 8; 5] true None None None.
Proof.
  split; [reflexivity|].
  apply (@nan_samples_do_not_matter unit_exp echo_fit trapezoid_quadrature no_plot
           [0; 1; nan; 2; 3] [5; nan; 6; 8; 5] [0; 2; 3] [5; 8; 5] true None None None).
  reflexivity.
Defined.

Lemma all_nan_input_raises_witness :
  length [nan; 1] = length [2; nan] /\
  Forall (fun p => defined_pair p = false) (combine [nan; 1] [2; nan]) /\
  remove_nan [nan; 1] [2; nan] = Ok ([], []) /\
  integrate_detector_signal unit_exp echo_fit trapezoid_quadrature no_plot
    [nan; 1] [2; nan] false (Some 1) (Some 1) (Some 0)
  = Raise ValueError_zero_size.
Proof.
  assert (H : Forall (fun p => defined_pair p = false) (combine [nan; 1] [2; nan]))
    by (repeat constructor).
  split; [reflexivity|]. split; [exact H|].
  apply (@all_nan_input_raises unit_exp echo_fit trapezoid_quadrature no_plot
           [nan; 1] [2; nan] false (Some 1) (Some 1) (Some 0) eq_refl H).
Defined.

Lemma plot_does_not_change_result_witness :
  integrate_detector_signal unit_exp fit25 trapezoid_quadrature no_plot
    time25 signal25 true None None None
  = Ok (37.714285714285701, 1.3360913254856459) /\
  integrate_detector_signal unit_exp fit25 trapezoid_quadrature no_plot
    time25 signal25 false None None None
  = Ok (37.714285714285701, 1.3360913254856459).
Proof.
  split; [vm_compute; reflexivity|].
  apply (@plot_does_not_change_result unit_exp fit25 trapezoid_quadrature no_plot
           time25 signal25 None None None 37.714285714285701 1.3360913254856459).
  vm_compute; reflexivity.
Defined.

Lemma area_SE_not_negative_witness :
  integrate_detector_signal unit_exp fit25 trapezoid_quadrature no_plot
    time25 signal25 false None None None
  = Ok (37.714285714285701, 1.3360913254856459) /\
  (1.3360913254856459 <? 0) = false.
Proof.
  split; [vm_compute; reflexivity|].
  apply (@area_SE_not_negative unit_exp fit25 trapezoid_quadrature no_plot
           time25 signal25 false None None None 37.714285714285701 1.3360913254856459).
  vm_compute; reflexivity.
Defined.

Lemma area_SE_nan_propagation_witness :
  integrate_detector_signal unit_exp fit11_wide trapezoid_quadrature no_plot
    time11 signal11 false None None None
  = Ok (nan, nan) /\
  exists r,
    run_of unit_exp fit11_wide trapezoid_quadrature time11 signal11 None None None r /\
    nan = np_linalg_norm [run_area_SE_background r; run_area_SE_n_sigma r;
                          run_area_SE_noiseROI r] /\
    (is_nan (run_area_SE_background r) = true \/
     is_nan (run_area_SE_n_sigma r) = true \/
     is_nan (run_area_SE_noiseROI r) = true ->
     nan = nan).
Proof.
  split; [vm_compute; reflexivity|].
  apply (@area_SE_nan_propagation unit_exp fit11_wide trapezoid_quadrature no_plot
           time11 signal11 false None None None nan nan).
  vm_compute; reflexivity.
Defined.

Lemma background_contribution_witness :
  integrate_detector_signal unit_exp fit25 trapezoid_quadrature no_plot
    time25 signal25 false None None None
  = Ok (37.714285714285701, 1.3360913254856459) /\
  exists r,
    run_of unit_exp fit25 trapezoid_quadrature time25 signal25 None None None r /\
    run_area r = 37.714285714285701 /\ run_area_SE r = 1.3360913254856459 /\
    let pairs := combine (run_time r) (run_signal r) in
    let inside := strictly_within (run_arrival_time r) (run_signal_width r) 3.5 in
    let roi_times := map fst (filter (fun q => inside (fst q)) pairs) in
    let b := map snd (filter (fun q => negb (inside (fst q))) pairs) in
    let background_SE := np_std b / np_sqrt (float_of_nat (length b)) in
    run_background_SE r = background_SE /\
    trapezoid_quadrature (repeat background_SE (length roi_times)) roi_times
    = Ok (run_area_SE_background r).
Proof.
  split; [vm_compute; reflexivity|].
  apply (@background_contribution unit_exp fit25 trapezoid_quadrature no_plot
           time25 signal25 false None None None 37.714285714285701 1.3360913254856459).
  vm_compute; reflexivity.
Defined.

(** ** Where an exception can come from *)

Lemma unpack2_slice_Raise_inv {A : Type} (l : list A) (e : exception) :
  unpack2 (slice 1 3 l) = Raise e -> length l < 3 /\ e = ValueError_unpack.
Proof.
  destruct l as [|a [|b [|c l]]]; simpl; intros H; try discriminate;
    inversion H; split; auto.
Qed.

Section Failures.

Variable np_exp : float -> float.
Variable curve_fit :
  model_function -> ndarray -> ndarray -> ndarray -> ndarray * ndarray ->
  result (ndarray * list ndarray).
Variable simps : ndarray -> ndarray -> result float.
Variable plt : plot_data -> result unit.

Lemma _gaussian_fit_Raise_inv (time signal : ndarray) (g1 g2 g3 : option float)
      (e : exception) :
  _gaussian_fit np_exp curve_fit time signal g1 g2 g3 = Raise e ->
  ((time = [] \/ signal = []) /\ e = ValueError_zero_size) \/
  exists p0 bounds,
    curve_fit (_gaussian_function np_exp) time signal p0 bounds = Raise e.
Proof.
  intros H.
  destruct time as [|t0 time].
  { rewrite _gaussian_fit_empty_trace in H by (left; reflexivity).
    left; split; [left; reflexivity | congruence]. }
  destruct signal as [|s0 signal].
  { rewrite _gaussian_fit_empty_trace in H by (right; reflexivity).
    left; split; [right; reflexivity | congruence]. }
  right; unfold _gaussian_fit in H.
  destruct g1, g2, g3; cbn [bind np_max np_min] in H;
    (apply bind_Raise_inv in H as [H|([fp cov] & _ & H)];
     [do 2 eexists; exact H | discriminate]).
Qed.

Lemma area_SE_n_sigma_Raise_inv (time signal : ndarray)
      (arrival_time signal_width background : float) (e : exception) :
  length time = length signal ->
  area_SE_n_sigma simps time signal arrival_time signal_width background = Raise e ->
  exists y x, simps y x = Raise e.
Proof.
  intros Hlen; unfold area_SE_n_sigma; rewrite roi_list_spec; cbn [bind]; intros H.
  apply bind_Raise_inv in H as [H|(areas & _ & H)]; [|discriminate].
  apply mapM_Raise_inv in H as (roi & Hin & H).
  apply In_np_unique, in_map_iff in Hin as (n & <- & _).
  rewrite !getitem_same_length in H by (rewrite length_map; lia).
  cbn [bind] in H; eauto.
Qed.

(** X8: every exception of the pipeline has one of six origins: the two
    inputs differ in length (a shape error of line 43); the cleaned trace is
    empty (the zero-size ValueError of the fitter); [curve_fit] raised it;
    [curve_fit] returned fewer than three parameters (the unpacking of line
    46); [simps] raised it; or, with [plot=True], the plotting code raised
    it.  The masks, the boolean indexing, the background estimate, the
    sweep and the norm raise nothing of their own. *)
Theorem failure_causes (time signal : ndarray) (plot : bool)
        (arrival_time_guess signal_width_guess background_guess : option float)
        (e : exception) :
  integrate_detector_signal np_exp curve_fit simps plt time signal plot
    arrival_time_guess signal_width_guess background_guess = Raise e ->
  (length time <> length signal /\ InputShapeError e) \/
  exists t s,
    remove_nan time signal = Ok (t, s) /\
    ((t = [] /\ s = [] /\ e = ValueError_zero_size) \/
     (exists p0 bounds,
        curve_fit (_gaussian_function np_exp) t s p0 bounds = Raise e) \/
     (exists fit_params fit_params_SE,
        _gaussian_fit np_exp curve_fit t s
          arrival_time_guess signal_width_guess background_guess
        = Ok (fit_params, fit_params_SE) /\
        length fit_params < 3 /\ e = ValueError_unpack) \/
     (exists y x, simps y x = Raise e) \/
     (plot = true /\ exists d, plt d = Raise e)).
Proof.
  unfold integrate_detector_signal; intros H.
  apply bind_Raise_inv in H as [H|([t s] & H1 & H)].
  { left; apply remove_nan_Raise_inv; exact H. }
  right; exists t, s; split; [exact H1|].
  pose proof (remove_nan_Ok_length _ _ H1) as Hlen.
  apply bind_Raise_inv in H as [H|([fp fse] & H2 & H)].
  { apply _gaussian_fit_Raise_inv in H as [([Ht|Hs] & He)|H].
    - left; subst t; destruct s; [auto | discriminate].
    - left; subst s; destruct t; [auto | discriminate].
    - right; left; exact H. }
  apply bind_Raise_inv in H as [H|([w t0] & H3 & H)].
  { apply unpack2_slice_Raise_inv in H as (Hfp & He).
    right; right; left; exists fp, fse; auto. }
  right; right; right.
  unfold region_of_interest_indeces in H; rewrite window_mask_spec in H.
  cbn [bind] in H.
  set (m := map (strictly_within t0 w 3.5) t) in H.
  assert (Lm : length m = length t) by apply length_map.
  rewrite (getitem_same_length t m) in H by lia; cbn [bind] in H.
  rewrite (getitem_same_length s m) in H by lia; cbn [bind] in H.
  rewrite (getitem_same_length t (invert m)) in H
    by (unfold invert; rewrite length_map; lia); cbn [bind] in H.
  rewrite (getitem_same_length s (invert m)) in H
    by (unfold invert; rewrite length_map; lia); cbn [bind] in H.
  destruct (background_estimate (select s (invert m))) as [bg bgse].
  apply bind_Raise_inv in H as [H|(a & _ & H)]; [left; eauto|].
  apply bind_Raise_inv in H as [H|(c1 & _ & H)]; [left; eauto|].
  apply bind_Raise_inv in H as [H|(c2 & _ & H)].
  { left; eapply area_SE_n_sigma_Raise_inv; eassumption. }
  destruct (@area_SE_noiseROI_returns t s t0 w (select s m) Hlen) as (c3 & Hc3).
  rewrite Hc3 in H; cbn [bind] in H.
  apply bind_Raise_inv in H as [H|(u & _ & H)]; [|discriminate].
  destruct plot; [|discriminate].
  right; split; [reflexivity | eauto].
Qed.

End Failures.

Lemma failure_causes_witness :
  integrate_detector_signal unit_exp short_fit trapezoid_quadrature failing_plot
    time11 signal11 true None None None = Raise ValueError_unpack /\
  ((length time11 <> length signal11 /\ InputShapeError ValueError_unpack) \/
   exists t s,
     remove_nan time11 signal11 = Ok (t, s) /\
     ((t = [] /\ s = [] /\ ValueError_unpack = ValueError_zero_size) \/
      (exists p0 bounds,
         short_fit (_gaussian_function unit_exp) t s p0 bounds = Raise ValueError_unpack) \/
      (exists fit_params fit_params_SE,
         _gaussian_fit unit_exp short_fit t s None None None
         = Ok (fit_params, fit_params_SE) /\
         length fit_params < 3 /\ ValueError_unpack = ValueError_unpack) \/
      (exists y x, trapezoid_quadrature y x = Raise ValueError_unpack) \/
      (true = true /\ exists d, failing_plot d = Raise ValueError_unpack))).
Proof.
  split; [reflexivity|].
  apply (@failure_causes unit_exp short_fit trapezoid_quadrature failing_plot
           time11 signal11 true None None None ValueError_unpack).
  reflexivity.
Defined.

Example failure_examples :
  integrate_detector_signal unit_exp failing_fit trapezoid_quadrature no_plot
    time11 signal11 false None None None = Raise (LibraryError 1) /\
  integrate_detector_signal unit_exp fit25 trapezoid_quadrature failing_plot
    time25 signal25 true None None None = Raise (LibraryError 0) /\
  integrate_detector_signal unit_exp fit25 trapezoid_quadrature failing_plot
    time25 signal25 false None None None
  = Ok (37.714285714285701, 1.3360913254856459).
Proof. repeat split; vm_compute; reflexivity. Qed.

(** ** Order of the samples *)

Lemma select_Forall {A : Type} (P : A -> Prop) (l : list A) (m : mask) :
  Forall P l -> Forall P (select l m).
Proof.
  intros H; revert m; induction H as [|a l Ha _ IH]; intros [|b m]; simpl;
    try constructor.
  destruct b; [constructor; [exact Ha | apply IH] | apply IH].
Qed.

Lemma select_StronglySorted {A : Type} (R : A -> A -> Prop) (l : list A) (m : mask) :
  StronglySorted R l -> StronglySorted R (select l m).
Proof.
  intros H; revert m; induction H as [|a l _ IH Ha]; intros [|b m]; simpl;
    try constructor.
  destruct b; [|apply IH].
  constructor; [apply IH | apply select_Forall; exact Ha].
Qed.

Lemma remove_nan_select (time signal t s : ndarray) :
  remove_nan time signal = Ok (t, s) ->
  exists m, t = select time m /\ s = select signal m.
Proof.
  unfold remove_nan; intros H.
  apply bind_Ok_inv in H as (t' & Ht & H).
  apply bind_Ok_inv in H as (s' & Hs & H).
  inversion H; subst; clear H.
  apply bind_Ok_inv in Ht as (m & Hm & Ht).
  rewrite Hm in Hs; cbn [bind] in Hs.
  apply getitem_Ok_inv in Ht as (_ & ->).
  apply getitem_Ok_inv in Hs as (_ & ->).
  exists m; auto.
Qed.

Section Order.

Variable np_exp : float -> float.
Variable curve_fit :
  model_function -> ndarray -> ndarray -> ndarray -> ndarray * ndarray ->
  result (ndarray * list ndarray).
Variable simps : ndarray -> ndarray -> result float.
Variable plt : plot_data -> result unit.

(** The order in which the caller's times are sorted, if any. *)
Variable R : float -> float -> Prop.

(** X9: the pipeline never reorders samples.  If the input times are sorted
    for some order [R] (each time related to all later ones), then in a call
    that returns so are the cleaned times, the times of the region of
    interest handed to [simps], and the times selected by any mask, those of
    the sweep included. *)
Theorem times_keep_their_order (time signal : ndarray) (plot : bool)
        (arrival_time_guess signal_width_guess background_guess : option float)
        (area area_SE : float) :
  StronglySorted R time ->
  integrate_detector_signal np_exp curve_fit simps plt time signal plot
    arrival_time_guess signal_width_guess background_guess = Ok (area, area_SE) ->
  exists r,
    run_of np_exp curve_fit simps time signal
      arrival_time_guess signal_width_guess background_guess r /\
    run_area r = area /\ run_area_SE r = area_SE /\
    StronglySorted R (run_time r) /\
    StronglySorted R (run_time_of_interest r) /\
    StronglySorted R (run_time_background r) /\
    forall roi, StronglySorted R (select (run_time r) roi).
Proof.
  intros Hsorted H; apply integrate_Ok_run in H as (r & Hr & Ha & Hse).
  pose proof Hr as (H1 & _ & _ & _ & H5 & _ & H7 & _).
  apply remove_nan_select in H1 as (m & Ht & _).
  apply getitem_Ok_inv in H5 as (_ & H5).
  apply getitem_Ok_inv in H7 as (_ & H7).
  assert (Hclean : StronglySorted R (run_time r))
    by (rewrite Ht; apply select_StronglySorted; exact Hsorted).
  exists r.
  split; [exact Hr|]. split; [exact Ha|]. split; [exact Hse|].
  split; [exact Hclean|].
  split; [rewrite H5; apply select_StronglySorted; exact Hclean|].
  split; [rewrite H7; apply select_StronglySorted; exact Hclean|].
  intros roi; apply select_StronglySorted; exact Hclean.
Qed.

End Order.

Lemma times_keep_their_order_witness :
  StronglySorted (fun a b => (a <? b) = true) time11 /\
  integrate_detector_signal unit_exp (constant_fit [9.5; 0.5; 5; 0.5] cov4)
    trapezoid_quadrature no_plot time11 signal11 false None None None
  = Ok (12, 4.9623583103198019) /\
  exists r,
    run_of unit_exp (constant_fit [9.5; 0.5; 5; 0.5] cov4) trapezoid_quadrature
      time11 signal11 None None None r /\
    run_area r = 12 /\ run_area_SE r = 4.9623583103198019 /\
    StronglySorted (fun a b => (a <? b) = true) (run_time r) /\
    StronglySorted (fun a b => (a <? b) = true) (run_time_of_interest r) /\
    StronglySorted (fun a b => (a <? b) = true) (run_time_background r) /\
    forall roi, StronglySorted (fun a b => (a <? b) = true) (select (run_time r) roi).
Proof.
  assert (Hs : StronglySorted (fun a b => (a <? b) = true) time11)
    by (unfold time11; repeat constructor).
  split; [exact Hs|]. split; [vm_compute; reflexivity|].
  apply (@times_keep_their_order unit_exp (constant_fit [9.5; 0.5; 5; 0.5] cov4)
           trapezoid_quadrature no_plot (fun a b => (a <? b) = true)
           time11 signal11 false None None None 12 4.9623583103198019 Hs).
  vm_compute; reflexivity.
Defined.

(** ** The model function (lines 22-23) *)

Section Model.

Variable np_exp : float -> float.

(** X10: the Gaussian model depends on a sample only through its squared
    deviation from the location, so it is symmetric about the location: two
    sample arrays whose deviations [x - location] are opposite, entry by
    entry, get the same model values, for every amplitude, width and
    background. *)
Theorem gaussian_model_symmetric (x x' : ndarray)
        (amplitude sigma location background : float) :
  map (fun xi => xi - location) x = map (fun xi => - (xi - location)) x' ->
  _gaussian_function np_exp x amplitude sigma location background
  = _gaussian_function np_exp x' amplitude sigma location background.
Proof.
  unfold _gaussian_function.
  revert x'; induction x as [|a x IH]; intros [|b x']; simpl; intros H;
    try reflexivity; try discriminate.
  injection H as Hd H.
  rewrite (IH x' H); f_equal.
  unfold np_square; rewrite Hd, mul_opp_opp; reflexivity.
Qed.

End Model.

Lemma gaussian_model_symmetric_witness :
  map (fun xi => xi - 5) [3; 4; 7.5] = map (fun xi => - (xi - 5)) [7; 6; 2.5] /\
  _gaussian_function unit_exp [3; 4; 7.5] 9 1.5 5 1
  = _gaussian_function unit_exp [7; 6; 2.5] 9 1.5 5 1.
Proof.
  split; [reflexivity|].
  apply (@gaussian_model_symmetric unit_exp [3; 4; 7.5] [7; 6; 2.5] 9 1.5 5 1).
  reflexivity.
Defined.

(** ** The windows of the sweep *)

Lemma insert_row_length (r : mask) (l : list mask) :
  1 <= length (insert_row r l) <= S (length l).
Proof.
  induction l as [|s l IH]; simpl; [lia|].
  destruct (row_compare r s); simpl; lia.
Qed.

Lemma np_unique_length (rows : list mask) :
  length (np_unique rows) <= length rows /\
  (rows <> [] -> 1 <= length (np_unique rows)).
Proof.
  induction rows as [|r rows [IH _]]; simpl; [split; [lia | congruence]|].
  pose proof (insert_row_length r (np_unique rows)); split; [lia | intros _; lia].
Qed.

(** X11: line 67 always returns, with at least one and at most 100 masks,
    each as long as the trace, without repetition and in lexicographic
    order; so line 68 indexes with masks of the right length and line 69
    never takes the standard deviation of an empty list. *)
Theorem sweep_windows (time : ndarray) (arrival_time signal_width : float) :
  exists rois,
    roi_list time arrival_time signal_width = Ok rois /\
    1 <= length rois <= 100 /\
    Forall (fun roi => length roi = length time) rois /\
    NoDup rois /\
    ascending rois.
Proof.
  rewrite roi_list_spec; eexists; split; [reflexivity|].
  set (rows := map (fun n_sigma =>
                      map (strictly_within arrival_time signal_width n_sigma) time)
                   (np_linspace 3.2 4.5 100)).
  assert (Hrows : length rows = 100%nat)
    by (unfold rows; rewrite length_map; exact n_sigma_sweep_length).
  destruct (np_unique_length rows) as [Hle Hge].
  split.
  { split; [apply Hge; intros E; rewrite E in Hrows; discriminate|].
    rewrite <- Hrows; exact Hle. }
  split; [|split; [apply np_unique_NoDup | apply np_unique_ascending]].
  apply Forall_forall; intros roi Hin.
  apply (proj1 (In_np_unique _ _)) in Hin; unfold rows in Hin.
  apply in_map_iff in Hin as (n & <- & _); apply length_map.
Qed.

(** ** What the result depends on *)

Section WindowOnly.

Variable np_exp : float -> float.
Variables curve_fit curve_fit' :
  model_function -> ndarray -> ndarray -> ndarray -> ndarray * ndarray ->
  result (ndarray * list ndarray).
Variable simps : ndarray -> ndarray -> result float.
Variables plt plt' : plot_data -> result unit.

Hypothesis fits_agree_on_window :
  forall f x y p0 bounds,
    same_window (curve_fit f x y p0 bounds) (curve_fit' f x y p0 bounds).

Lemma _gaussian_fit_same_window (time signal : ndarray) (g1 g2 g3 : option float) :
  same_window (_gaussian_fit np_exp curve_fit time signal g1 g2 g3)
              (_gaussian_fit np_exp curve_fit' time signal g1 g2 g3).
Proof.
  unfold _gaussian_fit.
  do 6 (apply (bind_related same_window); [intros; reflexivity | intros ?]).
  match goal with
  | |- same_window (bind (curve_fit ?f ?x ?y ?p ?b) _) _ =>
      pose proof (fits_agree_on_window f x y p b) as H;
      destruct (curve_fit f x y p b) as [[fp cov]|e],
               (curve_fit' f x y p b) as [[fp' cov']|e']
  end; simpl in *; auto.
Qed.

(** X12: of the fit, only the width and the location reach the result.  Two
    fitters that raise alike and whose returned parameters agree at
    positions 1 and 2 give, with [plot=False], the same outcome: the fitted
    amplitude, the fitted background and the covariance matrix (hence the
    parameter uncertainties of line 36) have no influence on the area or on
    its standard error. *)
Theorem result_depends_on_window_only (time signal : ndarray)
        (arrival_time_guess signal_width_guess background_guess : option float) :
  integrate_detector_signal np_exp curve_fit simps plt time signal false
    arrival_time_guess signal_width_guess background_guess
  = integrate_detector_signal np_exp curve_fit' simps plt' time signal false
      arrival_time_guess signal_width_guess background_guess.
Proof.
  unfold integrate_detector_signal.
  apply bind_ext; intros [t s].
  pose proof (_gaussian_fit_same_window t s
                arrival_time_guess signal_width_guess background_guess) as H.
  destruct (_gaussian_fit np_exp curve_fit t s _ _ _) as [[fp fse]|e],
           (_gaussian_fit np_exp curve_fit' t s _ _ _) as [[fp' fse']|e'];
    simpl in H; try contradiction; [|congruence].
  cbn [bind]; rewrite H; reflexivity.
Qed.

End WindowOnly.

Lemma result_depends_on_window_only_witness :
  (forall f x y p0 bounds,
     same_window (fit25 f x y p0 bounds) (fit25_other f x y p0 bounds)) /\
  integrate_detector_signal unit_exp fit25 trapezoid_quadrature no_plot
    time25 signal25 false None None None
  = integrate_detector_signal unit_exp fit25_other trapezoid_quadrature failing_plot
      time25 signal25 false None None None.
Proof.
  assert (H : forall f x y p0 bounds,
             same_window (fit25 f x y p0 bounds) (fit25_other f x y p0 bounds))
    by (intros; reflexivity).
  split; [exact H|].
  apply (@result_depends_on_window_only unit_exp fit25 fit25_other
           trapezoid_quadrature no_plot failing_plot H
           time25 signal25 None None None).
Defined.

(** ** A fit that returns NaN *)

Lemma mul_nan_r (x : float) : x * nan = nan.
Proof.
  apply Prim2SF_inj; rewrite mul_spec.
  change (Prim2SF nan) with S754_nan.
  destruct (Prim2SF x); reflexivity.
Qed.

Lemma sub_nan_l (x : float) : nan - x = nan.
Proof.
  apply Prim2SF_inj; rewrite sub_spec.
  change (Prim2SF nan) with S754_nan.
  destruct (Prim2SF x); reflexivity.
Qed.

Lemma sub_nan_r (x : float) : x - nan = nan.
Proof.
  apply Prim2SF_inj; rewrite sub_spec.
  change (Prim2SF nan) with S754_nan.
  destruct (Prim2SF x); reflexivity.
Qed.

Lemma ltb_nan_l (x : float) : (nan <? x) = false.
Proof.
  rewrite ltb_spec; change (Prim2SF nan) with S754_nan; reflexivity.
Qed.

Lemma ltb_nan_r (x : float) : (x <? nan) = false.
Proof.
  rewrite ltb_spec; change (Prim2SF nan) with S754_nan.
  destruct (Prim2SF x); reflexivity.
Qed.

Lemma strictly_within_nan (location width n_sigma t : float) :
  is_nan width = true \/ is_nan location = true ->
  strictly_within location width n_sigma t = false.
Proof.
  unfold strictly_within; intros [H|H]; apply is_nan_eq in H; subst.
  - rewrite mul_nan_r, sub_nan_r, ltb_nan_l; reflexivity.
  - rewrite sub_nan_l, ltb_nan_l; reflexivity.
Qed.

Lemma left_of_roi_nan (location width t : float) :
  is_nan width = true \/ is_nan location = true ->
  left_of_roi location width t = false.
Proof.
  unfold left_of_roi; intros [H|H]; apply is_nan_eq in H; subst.
  - rewrite mul_nan_r, sub_nan_r, ltb_nan_r; reflexivity.
  - rewrite sub_nan_l, ltb_nan_r; reflexivity.
Qed.

Lemma map_const_repeat {A B : Type} (f : A -> B) (b : B) (l : list A) :
  (forall a, f a = b) -> map f l = repeat b (length l).
Proof.
  intros H; induction l as [|a l IH]; simpl; [reflexivity|].
  rewrite H, IH; reflexivity.
Qed.

Lemma np_unique_repeat (r : mask) (n : nat) :
  np_unique (repeat r (S n)) = [r].
Proof.
  induction n as [|n IH]; [reflexivity|].
  change (np_unique (repeat r (S (S n)))) with (insert_row r (np_unique (repeat r (S n)))).
  rewrite IH; simpl; rewrite row_compare_refl; reflexivity.
Qed.

(** X13: when the fitted width or the fitted location is NaN, no sample
    passes any of the window tests: the mask of line 48 and the mask of
    line 71 are all [False], and the sweep of line 67 collapses to that one
    empty window. *)
Theorem nan_fit_selects_nothing (time : ndarray) (arrival_time signal_width : float) :
  is_nan signal_width = true \/ is_nan arrival_time = true ->
  region_of_interest_indeces time arrival_time signal_width
  = Ok (repeat false (length time)) /\
  roi_left time arrival_time signal_width = Ok (repeat false (length time)) /\
  roi_list time arrival_time signal_width = Ok [repeat false (length time)].
Proof.
  intros H.
  assert (Hw : forall n_sigma,
             map (strictly_within arrival_time signal_width n_sigma) time
             = repeat false (length time))
    by (intros; apply map_const_repeat; intros; apply strictly_within_nan; exact H).
  split; [|split].
  - unfold region_of_interest_indeces; rewrite window_mask_spec, Hw; reflexivity.
  - rewrite roi_left_spec.
    rewrite (@map_const_repeat _ _ _ false) by (intros; apply left_of_roi_nan; exact H).
    reflexivity.
  - rewrite roi_list_spec.
    rewrite (@map_const_repeat _ _ _ (repeat false (length time))) by exact Hw.
    rewrite n_sigma_sweep_length.
    change 100%nat with (S 99); rewrite np_unique_repeat; reflexivity.
Qed.

Lemma nan_fit_selects_nothing_witness :
  (is_nan nan = true \/ is_nan 5 = true) /\
  region_of_interest_indeces time11 5 nan = Ok (repeat false (length time11)) /\
  roi_left time11 5 nan = Ok (repeat false (length time11)) /\
  roi_list time11 5 nan = Ok [repeat false (length time11)].
Proof.
  assert (H : is_nan nan = true \/ is_nan 5 = true) by (left; reflexivity).
  split; [exact H|].
  apply (@nan_fit_selects_nothing time11 5 nan H).
Defined.
